(** * Cat-VRS (ga4gh/cat-vrs-python): the validation rules of the categorical
    variation models, embedded from the Python sources.

    - [Py]            the fragment of Python and pydantic the validators use:
                      exceptions, results, truthiness, [any], [in], [==];
    - [Recipes]       [src/ga4gh/cat_vrs/recipes.py]: the strict profile, where
                      [constraints] is a list and a broken rule raises;
    - [Models]        [src/ga4gh/cat_vrs/models.py]: the variant kinds and the
                      [CategoricalVariation] union, discriminated on [type];
    - [ProfileModels] [src/ga4gh/cat_vrs/profile_models.py]: the permissive
                      profile, where [constraints] is one object and a missing
                      relation is logged;
    - [Samples]       objects and mappings the statements are tried on.

    Definitions come first; the theorems follow, grouped by validator. *)

From stdpp Require Import base option list strings gmap.

Local Open Scope string_scope.
Set Warnings "-register-all".

(* ===================================================================== *)
(** * Python and pydantic                                                 *)
(* ===================================================================== *)

Module Py.

(** Values a caller can pass for a field: JSON-compatible data. *)
Inductive PyVal :=
| VNone
| VBool (b : bool)
| VInt (z : Z)
| VStr (s : string)
| VList (l : list PyVal)
| VDict (kv : list (string * PyVal)).

(** One entry of a pydantic [ValidationError]: the error type and the
    field it is located at. *)
Inductive PydanticError :=
| missing (loc : string)
| string_type (loc : string)
| list_type (loc : string)
| model_type (loc : string)
| literal_error (loc : string)
| too_short (loc : string) (min_length actual : nat)
| too_long (loc : string) (max_length actual : nat)
| value_error (loc : string) (msg : string)
| union_tag_not_found (discriminator : string)
| union_tag_invalid (discriminator : string) (tag : PyVal)
| external_type (loc : string).

(** What leaves a constructor call that does not return.  pydantic turns a
    structural failure, and a [ValueError] raised inside a field validator,
    into a [ValidationError]; any other exception raised inside a validator
    ([TypeError], [IndexError], ...) is not caught and propagates as it is. *)
Inductive Exception :=
| ValidationError (e : PydanticError)
| TypeError (msg : string)
| IndexError (msg : string).

Inductive result (A : Type) :=
| Ok (a : A)
| Raise (e : Exception).
Arguments Ok {A} a.
Arguments Raise {A} e.

#[global] Instance result_ret : MRet result := fun A a => Ok a.
#[global] Instance result_bind : MBind result := fun A B f m =>
  match m with
  | Ok a => f a
  | Raise e => Raise e
  end.

Definition is_ok {A} (r : result A) : bool :=
  match r with Ok _ => true | Raise _ => false end.

(** The spec's error taxonomy, read off the exception. *)
Definition is_cardinality_error {A} (r : result A) : bool :=
  match r with
  | Raise (ValidationError (too_short _ _ _)) => true
  | Raise (ValidationError (too_long _ _ _)) => true
  | _ => false
  end.

Definition is_constraint_violation {A} (r : result A) : bool :=
  match r with
  | Raise (ValidationError (value_error _ _)) => true
  | _ => false
  end.

Definition is_decode_error {A} (r : result A) : bool :=
  match r with
  | Raise (ValidationError (union_tag_not_found _)) => true
  | Raise (ValidationError (union_tag_invalid _ _)) => true
  | _ => false
  end.

(** [raise ValueError(msg)] inside the field validator of [loc]. *)
Definition raise_ValueError {A} (loc msg : string) : result A :=
  Raise (ValidationError (value_error loc msg)).

(** Truthiness of an optional list: [None] and [[]] are falsy. *)
Definition truthy {A} (o : option (list A)) : bool :=
  match o with
  | Some (_ :: _) => true
  | _ => false
  end.

(** [for x in o]: iterating [None] raises [TypeError]. *)
Definition iter {A} (o : option (list A)) : result (list A) :=
  match o with
  | Some l => Ok l
  | None => Raise (TypeError "'NoneType' object is not iterable")
  end.

(** [any(f(x) for x in l)]: the generator is consumed from the left, stops at
    the first true element, and an exception raised while computing an
    element leaves [any]. *)
Fixpoint any {A} (f : A → result bool) (l : list A) : result bool :=
  match l with
  | [] => Ok false
  | x :: l' =>
      b ← f x;
      if b : bool then Ok true else any f l'
  end.

(** [Field(..., min_length=, max_length=)] on a list field. *)
Definition check_length {A} (loc : string) (min_length : nat)
    (max_length : option nat) (v : list A) : result (list A) :=
  if (length v <? min_length)%nat
  then Raise (ValidationError (too_short loc min_length (length v)))
  else match max_length with
       | Some n =>
           if (n <? length v)%nat
           then Raise (ValidationError (too_long loc n (length v)))
           else Ok v
       | None => Ok v
       end.

(** A field whose annotation is a model class: pydantic accepts a mapping
    (validated against the class by [of_dict]) and nothing else that is
    JSON-compatible. *)
Definition model_field {M} (of_dict : list (string * PyVal) → result M)
    (loc : string) (x : PyVal) : result M :=
  match x with
  | VDict kv => of_dict kv
  | _ => Raise (ValidationError (model_type loc))
  end.

(** A field whose annotation is [list[M]]. *)
Definition list_field {M} (of_dict : list (string * PyVal) → result M)
    (loc : string) (x : PyVal) : result (list M) :=
  match x with
  | VList l => mapM (model_field of_dict loc) l
  | _ => Raise (ValidationError (list_type loc))
  end.

End Py.

(* ===================================================================== *)
(** * recipes.py: the strict profile                                      *)
(* ===================================================================== *)

Module Recipes.
Import Py.

(** Modelled from the spec: the [Relation] vocabulary of
    [ga4gh.cat_vrs.models], a [str] enumeration whose declaration is not in
    the sources; [recipes.py] names these three members and reads their
    [.value]. *)
Inductive Relation := TRANSLATES_FROM | LIFTOVER_TO | TRANSCRIBES_TO.

#[global] Instance Relation_eq_dec : EqDecision Relation.
Proof. solve_decision. Defined.

Definition value (r : Relation) : string :=
  match r with
  | TRANSLATES_FROM => "translates_from"
  | LIFTOVER_TO => "liftover_to"
  | TRANSCRIBES_TO => "transcribes_to"
  end.

(** Modelled from the spec: an entry of a constraint's [relations], a
    (primaryCode, optional qualifiers) pair whose class is declared outside
    the sources; [recipes.py] reads its [primaryCode] attribute. *)
Record RelationObject := {
  primaryCode : string;
  qualifiers : option (list string)
}.

#[global] Instance RelationObject_eq_dec : EqDecision RelationObject.
Proof. solve_decision. Defined.

(** Modelled from the spec: the variants of the polymorphic [Constraint]. *)
Inductive ConstraintClass :=
| DefiningAlleleConstraint
| DefiningLocationConstraint
| DefiningContextConstraint
| CopyCountConstraint
| CopyChangeConstraint.

#[global] Instance ConstraintClass_eq_dec : EqDecision ConstraintClass.
Proof. solve_decision. Defined.

(** Modelled from the spec: a constraint object carries its class and an
    optional ordered list of relations ([None] when absent). *)
Record Constraint := {
  class : ConstraintClass;
  relations : option (list RelationObject)
}.

Definition isinstance (c : Constraint) (k : ConstraintClass) : bool :=
  bool_decide (class c = k).

(** The objects the validators compare with [==] and [in]. *)
Inductive PyObject :=
| EnumMember (r : Relation)
| Str (s : string)
| Obj (m : RelationObject).

(** Python's [a == b].  A [str] enumeration member is a [str]: it equals a
    string with the same characters.  Against a model object [str.__eq__]
    and the model's [__eq__] both return [NotImplemented], so the comparison
    falls back on identity and is false. *)
Definition py_eq (a b : PyObject) : bool :=
  match a, b with
  | EnumMember r, EnumMember r' => bool_decide (r = r')
  | EnumMember r, Str s => bool_decide (value r = s)
  | Str s, EnumMember r => bool_decide (s = value r)
  | Str s, Str t => bool_decide (s = t)
  | Obj m, Obj n => bool_decide (m = n)
  | _, _ => false
  end.

(** Python's [x in l] on a list. *)
Definition py_in (x : PyObject) (l : list PyObject) : bool :=
  existsb (fun e => py_eq x e) l.

(** [sum(1 for r in relations if r.primaryCode == code)] *)
Definition count_code (code : Relation) (rels : list RelationObject) : nat :=
  length (filter (λ r, py_eq (Str (primaryCode r)) (EnumMember code) = true) rels).

(** ** ProteinSequenceConsequence (lines 19-65) *)
Module ProteinSequenceConsequence.

Definition err_msg : string :=
  "Unable to find at least one constraint that is a `DefiningAlleleConstraint` and has exactly one `relation` where the `primaryCode` is '"
  +:+ value TRANSLATES_FROM +:+ "'.".

(** Lines 36-41 of the docstring: what is asked of one constraint. *)
Definition satisfies (c : Constraint) : bool :=
  isinstance c DefiningAlleleConstraint
  && truthy (relations c)
  && bool_decide (count_code TRANSLATES_FROM (default [] (relations c)) = 1).

(** Lines 48-59: the tuple handed to [all] is built whole before [all]
    looks at it, so the [sum] over [constraint.relations] runs whatever the
    first two components are. *)
Definition item (constraint : Constraint) : result bool :=
  let is_dac := isinstance constraint DefiningAlleleConstraint in
  let has_relations := truthy (relations constraint) in
  rels ← iter (relations constraint);
  let one_match := bool_decide (count_code TRANSLATES_FROM rels = 1) in
  mret (is_dac && has_relations && one_match).

Definition validate_constraints (v : list Constraint)
    : result (list Constraint) :=
  found ← any item v;
  if negb found then raise_ValueError "constraints" err_msg
  else mret v.

(** [constraints: list[Constraint] = Field(..., min_length=1)], then the
    field validator (mode after). *)
Definition construct (constraints : list Constraint)
    : result (list Constraint) :=
  v ← check_length "constraints" 1 None constraints;
  validate_constraints v.

End ProteinSequenceConsequence.

(** ** CanonicalAllele (lines 68-126) *)
Module CanonicalAllele.

Definition err_class : string :=
  "Constraint must be a `DefiningAlleleConstraint`.".
Definition err_required : string := "`relations` is required.".
Definition err_liftover : string :=
  "Must contain exactly one relation where `primaryCode` is '"
  +:+ value LIFTOVER_TO +:+ "'.".
Definition err_transcribes : string :=
  "Must contain exactly one relation where `primaryCode` is '"
  +:+ value TRANSCRIBES_TO +:+ ".".

Definition validate_constraints (v : list Constraint)
    : result (list Constraint) :=
  match v !! 0 with
  | None => Raise (IndexError "list index out of range")
  | Some constraint =>
      if negb (isinstance constraint DefiningAlleleConstraint)
      then raise_ValueError "constraints" err_class
      else if negb (truthy (relations constraint))
      then raise_ValueError "constraints" err_required
      else
        rels ← iter (relations constraint);
        if negb (bool_decide (count_code LIFTOVER_TO rels = 1))
        then raise_ValueError "constraints" err_liftover
        else
          rels ← iter (relations constraint);
          if negb (bool_decide (count_code TRANSCRIBES_TO rels = 1))
          then raise_ValueError "constraints" err_transcribes
          else mret v
  end.

(** [Field(..., min_length=1, max_length=1)], then the field validator. *)
Definition construct (constraints : list Constraint)
    : result (list Constraint) :=
  v ← check_length "constraints" 1 (Some 1) constraints;
  validate_constraints v.

End CanonicalAllele.

(** ** CategoricalCnv (lines 129-180) *)
Module CategoricalCnv.

Definition err_def_loc : string :=
  "Must contain a `DefiningLocationConstraint` with at least one relation where `primaryCode` is "
  +:+ value LIFTOVER_TO +:+ ".".
Definition err_copy : string :=
  "Must contain either a `CopyCountConstraint` or `CopyChangeConstraint`.".

(** Lines 159-163, as a truth value: the [and] chain reaches the [in] test
    only when [constraint.relations] is a non-empty list, and the test
    looks for the enumeration member among the relation objects. *)
Definition def_loc_test (constraint : Constraint) : bool :=
  isinstance constraint DefiningLocationConstraint
  && truthy (relations constraint)
  && py_in (EnumMember LIFTOVER_TO)
       (Obj <$> default [] (relations constraint)).

(** Lines 166-168 *)
Definition copy_test (constraint : Constraint) : bool :=
  isinstance constraint CopyCountConstraint
  || isinstance constraint CopyChangeConstraint.

(** The two flags of the loop. *)
Record flags := {
  def_loc_constr_found : bool;
  copy_constr_found : bool
}.

Definition step (st : flags) (constraint : Constraint) : flags :=
  {| def_loc_constr_found :=
       if negb (def_loc_constr_found st) then def_loc_test constraint
       else def_loc_constr_found st;
     copy_constr_found :=
       if negb (copy_constr_found st) then copy_test constraint
       else copy_constr_found st |}.

Definition loop (v : list Constraint) : flags :=
  foldl step {| def_loc_constr_found := false;
                copy_constr_found := false |} v.

Definition validate_constraints (v : list Constraint)
    : result (list Constraint) :=
  let st := loop v in
  if negb (def_loc_constr_found st)
  then raise_ValueError "constraints" err_def_loc
  else if negb (copy_constr_found st)
  then raise_ValueError "constraints" err_copy
  else mret v.

(** [Field(..., min_length=2, max_length=2)], then the field validator. *)
Definition construct (constraints : list Constraint)
    : result (list Constraint) :=
  v ← check_length "constraints" 2 (Some 2) constraints;
  validate_constraints v.

End CategoricalCnv.

(** The three classes as pydantic models, from the keyword arguments:
    [constraints] is required and annotated [list[Constraint]] (lines 29, 77,
    132). *)
Section Construct.
(** pydantic's validation of a mapping against the [Constraint] classes of
    [ga4gh.cat_vrs.models], which are not in the sources. *)
Variable Constraint_of_dict : list (string * PyVal) → result Constraint.

Definition constraints_field
    (construct : list Constraint → result (list Constraint))
    (kwargs : gmap string PyVal) : result (list Constraint) :=
  match kwargs !! "constraints" with
  | None => Raise (ValidationError (missing "constraints"))
  | Some x =>
      items ← list_field Constraint_of_dict "constraints" x;
      construct items
  end.

Definition ProteinSequenceConsequence_validate :=
  constraints_field ProteinSequenceConsequence.construct.
Definition CanonicalAllele_validate :=
  constraints_field CanonicalAllele.construct.
Definition CategoricalCnv_validate :=
  constraints_field CategoricalCnv.construct.

End Construct.

End Recipes.

(* ===================================================================== *)
(** * models.py: the variant kinds and their union                        *)
(* ===================================================================== *)

Module Models.
Import Py.

(** Lines 26-35 *)
Inductive CatVrsType :=
| PROTEIN_SEQ_CONS
| CANONICAL_ALLELE
| CATEGORICAL_CNV
| DESCRIBED_VAR
| NUMBER_COUNT
| NUMBER_CHANGE
| QUANTITY_VARIANCE.

#[global] Instance CatVrsType_eq_dec : EqDecision CatVrsType.
Proof. solve_decision. Defined.

Definition value (t : CatVrsType) : string :=
  match t with
  | PROTEIN_SEQ_CONS => "ProteinSequenceConsequence"
  | CANONICAL_ALLELE => "CanonicalAllele"
  | CATEGORICAL_CNV => "CategoricalCnv"
  | DESCRIBED_VAR => "DescribedVariation"
  | NUMBER_COUNT => "NumberCount"
  | NUMBER_CHANGE => "NumberChange"
  | QUANTITY_VARIANCE => "QuantityVariance"
  end.

(** Lines 38-51 *)
Inductive LocationMatchCharacteristic :=
| EXACT
| PARTIAL
| SUBINTERVAL
| SUPERINTERVAL.

Definition LocationMatchCharacteristic_of (s : string)
    : option LocationMatchCharacteristic :=
  if decide (s = "exact") then Some EXACT
  else if decide (s = "partial") then Some PARTIAL
  else if decide (s = "subinterval") then Some SUBINTERVAL
  else if decide (s = "superinterval") then Some SUPERINTERVAL
  else None.

(** What [models.py] imports and does not define: the value types of
    [ga4gh.vrs.models] and [ga4gh.core.entity_models], the fields the kinds
    inherit from [_DomainEntity], and pydantic's reading of an [int].  Each
    is the collaborator's own validation of a value. *)
Record Collaborators := {
  is_Allele : PyVal → bool;
  is_IRI : PyVal → bool;
  is_variation_member : PyVal → bool;
  is_SequenceLocation : PyVal → bool;
  is_CopyChange : PyVal → bool;
  is_Range : PyVal → bool;
  as_int : PyVal → option Z;
  domain_entity_ok : gmap string PyVal → bool
}.

(** The validated kinds.  A value of a collaborator's type is kept as it
    was given. *)
Record ProteinSequenceConsequence := {
  psc_members : option (list PyVal);
  psc_definingContext : PyVal
}.

Record CanonicalAllele := {
  ca_members : option (list PyVal);
  ca_definingContext : PyVal
}.

Record CategoricalCnv := {
  cnv_members : option (list PyVal);
  cnv_location : PyVal;
  cnv_locationMatchCharacteristic : option LocationMatchCharacteristic;
  cnv_copyChange : option PyVal;
  cnv_copies : option PyVal
}.

Record DescribedVariation := {
  dv_members : option (list PyVal);
  dv_label : string;
  dv_description : option string
}.

(** Lines 167-183: the root of [CategoricalVariation]. *)
Inductive CategoricalVariation :=
| root_CanonicalAllele (x : CanonicalAllele)
| root_CategoricalCnv (x : CategoricalCnv)
| root_DescribedVariation (x : DescribedVariation)
| root_ProteinSequenceConsequence (x : ProteinSequenceConsequence).

Definition kind (v : CategoricalVariation) : CatVrsType :=
  match v with
  | root_CanonicalAllele _ => CANONICAL_ALLELE
  | root_CategoricalCnv _ => CATEGORICAL_CNV
  | root_DescribedVariation _ => DESCRIBED_VAR
  | root_ProteinSequenceConsequence _ => PROTEIN_SEQ_CONS
  end.

Section Validation.
Variable ext : Collaborators.

(** [type: Literal[t] = Field(t)]: the default when absent, else the
    kind's own name. *)
Definition literal_field (t : CatVrsType) (o : option PyVal) : result unit :=
  match o with
  | None => Ok ()
  | Some (VStr s) =>
      if decide (s = value t) then Ok ()
      else Raise (ValidationError (literal_error "type"))
  | Some _ => Raise (ValidationError (literal_error "type"))
  end.

(** [loc: StrictStr = Field(...)]: required, a [str] and nothing else. *)
Definition required_StrictStr (loc : string) (o : option PyVal)
    : result string :=
  match o with
  | None => Raise (ValidationError (missing loc))
  | Some (VStr s) => Ok s
  | Some _ => Raise (ValidationError (string_type loc))
  end.

(** [loc: StrictStr | None = Field(None)] *)
Definition optional_StrictStr (loc : string) (o : option PyVal)
    : result (option string) :=
  match o with
  | None | Some VNone => Ok None
  | Some (VStr s) => Ok (Some s)
  | Some _ => Raise (ValidationError (string_type loc))
  end.

(** A required field of a collaborator's type. *)
Definition required_external (loc : string) (accepts : PyVal → bool)
    (o : option PyVal) : result PyVal :=
  match o with
  | None => Raise (ValidationError (missing loc))
  | Some x =>
      if accepts x then Ok x
      else Raise (ValidationError (external_type loc))
  end.

(** An optional field of a collaborator's type, [None] by default. *)
Definition optional_external (loc : string) (accepts : PyVal → bool)
    (o : option PyVal) : result (option PyVal) :=
  match o with
  | None | Some VNone => Ok None
  | Some x =>
      if accepts x then Ok (Some x)
      else Raise (ValidationError (external_type loc))
  end.

(** Lines 57-72: [members: list[Allele | ... | IRI] | None = Field(None)] *)
Definition members_field (o : option PyVal) : result (option (list PyVal)) :=
  match o with
  | None | Some VNone => Ok None
  | Some (VList l) =>
      if forallb (is_variation_member ext) l then Ok (Some l)
      else Raise (ValidationError (external_type "members"))
  | Some _ => Raise (ValidationError (list_type "members"))
  end.

(** The part every kind inherits: [_DomainEntity]'s fields, then
    [members]. *)
Definition base_fields (m : gmap string PyVal)
    : result (option (list PyVal)) :=
  if negb (domain_entity_ok ext m)
  then Raise (ValidationError (external_type "_DomainEntity"))
  else members_field (m !! "members").

Definition Allele_or_IRI (x : PyVal) : bool := is_Allele ext x || is_IRI ext x.

(** Lines 75-92 *)
Definition ProteinSequenceConsequence_validate (m : gmap string PyVal)
    : result ProteinSequenceConsequence :=
  members ← base_fields m;
  _ ← literal_field PROTEIN_SEQ_CONS (m !! "type");
  ctx ← required_external "definingContext" Allele_or_IRI
          (m !! "definingContext");
  mret {| psc_members := members; psc_definingContext := ctx |}.

(** Lines 95-111 *)
Definition CanonicalAllele_validate (m : gmap string PyVal)
    : result CanonicalAllele :=
  members ← base_fields m;
  _ ← literal_field CANONICAL_ALLELE (m !! "type");
  ctx ← required_external "definingContext" Allele_or_IRI
          (m !! "definingContext");
  mret {| ca_members := members; ca_definingContext := ctx |}.

(** Line 132: [LocationMatchCharacteristic | None] *)
Definition locationMatchCharacteristic_field (o : option PyVal)
    : result (option LocationMatchCharacteristic) :=
  match o with
  | None | Some VNone => Ok None
  | Some (VStr s) =>
      match LocationMatchCharacteristic_of s with
      | Some c => Ok (Some c)
      | None =>
          Raise (ValidationError (literal_error "locationMatchCharacteristic"))
      end
  | Some _ =>
      Raise (ValidationError (literal_error "locationMatchCharacteristic"))
  end.

(** Line 140: [copies: int | Range | None] *)
Definition int_or_Range (x : PyVal) : bool :=
  bool_decide (is_Some (as_int ext x)) || is_Range ext x.

(** Lines 114-142 *)
Definition CategoricalCnv_validate (m : gmap string PyVal)
    : result CategoricalCnv :=
  members ← base_fields m;
  _ ← literal_field CATEGORICAL_CNV (m !! "type");
  loc ← required_external "location" (is_SequenceLocation ext)
          (m !! "location");
  lmc ← locationMatchCharacteristic_field (m !! "locationMatchCharacteristic");
  cc ← optional_external "copyChange" (is_CopyChange ext) (m !! "copyChange");
  n ← optional_external "copies" int_or_Range (m !! "copies");
  mret {| cnv_members := members; cnv_location := loc;
          cnv_locationMatchCharacteristic := lmc;
          cnv_copyChange := cc; cnv_copies := n |}.

(** Lines 145-164 *)
Definition DescribedVariation_validate (m : gmap string PyVal)
    : result DescribedVariation :=
  members ← base_fields m;
  _ ← literal_field DESCRIBED_VAR (m !! "type");
  label ← required_StrictStr "label" (m !! "label");
  description ← optional_StrictStr "description" (m !! "description");
  mret {| dv_members := members; dv_label := label;
          dv_description := description |}.

(** Lines 167-183: the union is discriminated on [type].  The tag is read
    from the mapping before any member is tried; a missing tag and a tag
    that names no member are errors of the union itself. *)
Definition CategoricalVariation_validate (m : gmap string PyVal)
    : result CategoricalVariation :=
  match m !! "type" with
  | None => Raise (ValidationError (union_tag_not_found "type"))
  | Some (VStr tag) =>
      if decide (tag = value CANONICAL_ALLELE)
      then x ← CanonicalAllele_validate m; mret (root_CanonicalAllele x)
      else if decide (tag = value CATEGORICAL_CNV)
      then x ← CategoricalCnv_validate m; mret (root_CategoricalCnv x)
      else if decide (tag = value DESCRIBED_VAR)
      then x ← DescribedVariation_validate m; mret (root_DescribedVariation x)
      else if decide (tag = value PROTEIN_SEQ_CONS)
      then x ← ProteinSequenceConsequence_validate m;
           mret (root_ProteinSequenceConsequence x)
      else Raise (ValidationError (union_tag_invalid "type" (VStr tag)))
  | Some x => Raise (ValidationError (union_tag_invalid "type" x))
  end.

End Validation.

(** The kind names the union accepts as a tag. *)
Definition union_tags : list string :=
  [value CANONICAL_ALLELE; value CATEGORICAL_CNV;
   value DESCRIBED_VAR; value PROTEIN_SEQ_CONS].

(** Collaborators that reject every value of their types and ask nothing of
    the inherited fields: enough to build an object from its own fields
    alone. *)
Definition own_fields_only : Collaborators := {|
  is_Allele := λ _, false;
  is_IRI := λ _, false;
  is_variation_member := λ _, false;
  is_SequenceLocation := λ _, false;
  is_CopyChange := λ _, false;
  is_Range := λ _, false;
  as_int := λ x, match x with VInt z => Some z | _ => None end;
  domain_entity_ok := λ _, true
|}.

(** Lines 48-51: the values of [LocationMatchCharacteristic]. *)
Definition LocationMatchCharacteristic_value (c : LocationMatchCharacteristic)
    : string :=
  match c with
  | EXACT => "exact"
  | PARTIAL => "partial"
  | SUBINTERVAL => "subinterval"
  | SUPERINTERVAL => "superinterval"
  end.

(** A validated [int | Range | CopyChange]: the integer pydantic read, or
    the collaborator's value as it was given. *)
Inductive Quantity :=
| an_int (z : Z)
| a_Range (r : PyVal)
| a_CopyChange (c : PyVal).

(** Lines 186-195 *)
Record NumberCount := { nc_count : Quantity }.
(** Lines 198-209 *)
Record NumberChange := { nch_change : Quantity }.
(** Lines 212-221: [type] is the only field. *)
Inductive QuantityVariance := quantity_variance.

(** The standalone kinds: plain [BaseModel] classes, which inherit no field
    and ignore the keys they do not declare. *)
Section Standalone.
Variable ext : Collaborators.

(** Line 192: [count: int | Range = Field(...)] *)
Definition int_or_Range_field (loc : string) (o : option PyVal)
    : result Quantity :=
  match o with
  | None => Raise (ValidationError (missing loc))
  | Some x =>
      match as_int ext x with
      | Some z => Ok (an_int z)
      | None =>
          if is_Range ext x then Ok (a_Range x)
          else Raise (ValidationError (external_type loc))
      end
  end.

(** Line 206: [change: int | Range | CopyChange = Field(...)] *)
Definition int_or_Range_or_CopyChange_field (loc : string) (o : option PyVal)
    : result Quantity :=
  match o with
  | None => Raise (ValidationError (missing loc))
  | Some x =>
      match as_int ext x with
      | Some z => Ok (an_int z)
      | None =>
          if is_Range ext x then Ok (a_Range x)
          else if is_CopyChange ext x then Ok (a_CopyChange x)
          else Raise (ValidationError (external_type loc))
      end
  end.

Definition NumberCount_validate (m : gmap string PyVal) : result NumberCount :=
  _ ← literal_field NUMBER_COUNT (m !! "type");
  count ← int_or_Range_field "count" (m !! "count");
  mret {| nc_count := count |}.

Definition NumberChange_validate (m : gmap string PyVal) : result NumberChange :=
  _ ← literal_field NUMBER_CHANGE (m !! "type");
  change ← int_or_Range_or_CopyChange_field "change" (m !! "change");
  mret {| nch_change := change |}.

Definition QuantityVariance_validate (m : gmap string PyVal)
    : result QuantityVariance :=
  _ ← literal_field QUANTITY_VARIANCE (m !! "type");
  mret quantity_variance.

End Standalone.

End Models.

(* ===================================================================== *)
(** * profile_models.py: the permissive profile                           *)
(* ===================================================================== *)

Module ProfileModels.
Import Py.

(** Modelled from the spec: the [Relation] vocabulary of
    [ga4gh.cat_vrs.core_models], a [str] enumeration whose declaration is not
    in the sources; [profile_models.py] names these three members. *)
Inductive Relation :=
| CODON_TRANSLATION
| SEQUENCE_LIFTOVER
| TRANSCRIPT_PROJECTION.

#[global] Instance Relation_eq_dec : EqDecision Relation.
Proof. solve_decision. Defined.

#[global] Instance Relation_countable : Countable Relation.
Proof.
  refine (inj_countable'
    (λ r, match r with
          | CODON_TRANSLATION => 0
          | SEQUENCE_LIFTOVER => 1
          | TRANSCRIPT_PROJECTION => 2
          end)
    (λ n, match n with
          | 0 => CODON_TRANSLATION
          | 1 => SEQUENCE_LIFTOVER
          | _ => TRANSCRIPT_PROJECTION
          end) _).
  by intros [].
Defined.

Definition value (r : Relation) : string :=
  match r with
  | CODON_TRANSLATION => "codon_translation"
  | SEQUENCE_LIFTOVER => "sequence_liftover"
  | TRANSCRIPT_PROJECTION => "transcript_projection"
  end.

(** Modelled from the spec: the constraint object of
    [ga4gh.cat_vrs.core_models] ([DefiningContextConstraint], and the
    [Constraint] that [CategoricalCnvProperties] takes), with its optional
    ordered list of relations ([None] when absent).  The validators test
    [Relation] members for membership in the list and build [set] from it,
    so its items are members of the vocabulary. *)
Record DefiningContextConstraint := {
  relations : option (list Relation)
}.

(** What [logging.warning(msg, arg)] hands to the root logger. *)
Inductive LogArg :=
| ArgValue (s : string)
| ArgRelations (missing_relations : gset Relation).

Inductive Level := WARNING.

Record LogRecord := {
  levelname : Level;
  msg : string;
  arg : LogArg
}.

Definition warning (m : string) (a : LogArg) : LogRecord :=
  {| levelname := WARNING; msg := m; arg := a |}.

(** Python's [x in l] for a member of the enumeration. *)
Definition py_in (x : Relation) (l : list Relation) : bool :=
  existsb (λ e, bool_decide (x = e)) l.

Definition msg_relation : string :=
  "`constraints.relations` is missing the following relation: %s.".
Definition msg_relations : string :=
  "`constraints.relations` is missing the following relations: %s.".

(** A validator returns its argument and the records it logged. *)
Definition logged (A : Type) : Type := A * list LogRecord.

(** Lines 36-51 *)
Module ProteinSequenceConsequenceProperties.
Definition validate_constraints (v : DefiningContextConstraint)
    : logged DefiningContextConstraint :=
  if truthy (relations v)
     && negb (py_in CODON_TRANSLATION (default [] (relations v)))
  then (v, [warning msg_relation (ArgValue (value CODON_TRANSLATION))])
  else (v, []).
End ProteinSequenceConsequenceProperties.

(** Lines 72-95 *)
Module CanonicalAlleleProperties.
Definition required_relations : gset Relation :=
  {[SEQUENCE_LIFTOVER; TRANSCRIPT_PROJECTION]}.

Definition validate_constraints (v : DefiningContextConstraint)
    : logged DefiningContextConstraint :=
  if truthy (relations v)
  then
    let relations : gset Relation := list_to_set (default [] (relations v)) in
    if negb (bool_decide (required_relations ⊆ relations))
    then
      let missing_relations := required_relations ∖ relations in
      (v, [warning msg_relations (ArgRelations missing_relations)])
    else (v, [])
  else (v, []).
End CanonicalAlleleProperties.

(** Lines 113-128 *)
Module CategoricalCnvProperties.
Definition validate_constraints (v : DefiningContextConstraint)
    : logged DefiningContextConstraint :=
  if truthy (relations v)
     && negb (py_in SEQUENCE_LIFTOVER (default [] (relations v)))
  then (v, [warning msg_relation (ArgValue (value SEQUENCE_LIFTOVER))])
  else (v, []).
End CategoricalCnvProperties.

(** The three mixin classes as pydantic models: one required field,
    [constraints], annotated with a model class (lines 34, 70, 111), and the
    field validator run on the decoded object. *)
Section Construct.
(** pydantic's validation of a mapping against the constraint classes of
    [core_models], which are not in the sources. *)
Variable DefiningContextConstraint_of_dict
  : list (string * PyVal) → result DefiningContextConstraint.
Variable Constraint_of_dict
  : list (string * PyVal) → result DefiningContextConstraint.

Definition constraints_field
    (of_dict : list (string * PyVal) → result DefiningContextConstraint)
    (validate_constraints
       : DefiningContextConstraint → logged DefiningContextConstraint)
    (kwargs : gmap string PyVal) : result (logged DefiningContextConstraint) :=
  match kwargs !! "constraints" with
  | None => Raise (ValidationError (missing "constraints"))
  | Some x =>
      v ← model_field of_dict "constraints" x;
      mret (validate_constraints v)
  end.

Definition ProteinSequenceConsequenceProperties_validate :=
  constraints_field DefiningContextConstraint_of_dict
    ProteinSequenceConsequenceProperties.validate_constraints.

Definition CanonicalAlleleProperties_validate :=
  constraints_field DefiningContextConstraint_of_dict
    CanonicalAlleleProperties.validate_constraints.

Definition CategoricalCnvProperties_validate :=
  constraints_field Constraint_of_dict
    CategoricalCnvProperties.validate_constraints.

End Construct.

End ProfileModels.

(* ===================================================================== *)
(** * Sample objects                                                      *)
(* ===================================================================== *)

Module Samples.
Import Py Recipes.

Definition relation (code : string) : RelationObject :=
  {| primaryCode := code; qualifiers := None |}.

Definition liftover_to := relation "liftover_to".
Definition transcribes_to := relation "transcribes_to".
Definition translates_from := relation "translates_from".

Definition defining_allele (rels : option (list RelationObject)) : Constraint :=
  {| class := DefiningAlleleConstraint; relations := rels |}.
Definition defining_location (rels : option (list RelationObject)) : Constraint :=
  {| class := DefiningLocationConstraint; relations := rels |}.

(** A canonical allele's constraint as the recipe wants it. *)
Definition canonical := defining_allele (Some [liftover_to; transcribes_to]).
(** Two relations coded "liftover_to". *)
Definition canonical_twice :=
  defining_allele (Some [liftover_to; liftover_to; transcribes_to]).
(** No relation coded "transcribes_to". *)
Definition canonical_no_transcript := defining_allele (Some [liftover_to]).
(** A protein consequence's constraint as the recipe wants it. *)
Definition protein := defining_allele (Some [translates_from]).
(** A defining allele given without [relations]. *)
Definition allele_without_relations := defining_allele None.
(** A defining allele whose [relations] is the empty list. *)
Definition allele_empty_relations := defining_allele (Some []).
(** A defining location with one relation coded "liftover_to". *)
Definition location_liftover := defining_location (Some [liftover_to]).
(** A defining location with no relation coded "liftover_to". *)
Definition location_other := defining_location (Some [transcribes_to]).
Definition copy_count : Constraint :=
  {| class := CopyCountConstraint; relations := None |}.
Definition copy_change : Constraint :=
  {| class := CopyChangeConstraint; relations := None |}.

(** A described variation given with an empty label. *)
Definition described_empty_label : gmap string PyVal :=
  <["type" := VStr "DescribedVariation"]> (<["label" := VStr ""]> ∅).
(** A mapping whose tag names no kind of the union. *)
Definition unknown_kind : gmap string PyVal :=
  <["type" := VStr "NumberCount"]> (<["count" := VInt 3]> ∅).
(** A mapping without a tag. *)
Definition untagged : gmap string PyVal :=
  <["label" := VStr "EGFR amplification"]> ∅.

(** Permissive constraints: without [relations], with an empty list, and
    with the sequence liftover alone. *)
Definition context_without_relations : ProfileModels.DefiningContextConstraint :=
  {| ProfileModels.relations := None |}.
Definition context_empty_relations : ProfileModels.DefiningContextConstraint :=
  {| ProfileModels.relations := Some [] |}.
Definition context_liftover_only : ProfileModels.DefiningContextConstraint :=
  {| ProfileModels.relations := Some [ProfileModels.SEQUENCE_LIFTOVER] |}.

(** A decoder of permissive constraints that reads [relations] alone. *)
Definition relation_of (x : PyVal) : option ProfileModels.Relation :=
  match x with
  | VStr s =>
      if decide (s = "codon_translation")
      then Some ProfileModels.CODON_TRANSLATION
      else if decide (s = "sequence_liftover")
      then Some ProfileModels.SEQUENCE_LIFTOVER
      else if decide (s = "transcript_projection")
      then Some ProfileModels.TRANSCRIPT_PROJECTION
      else None
  | _ => None
  end.

Definition context_of_dict (kv : list (string * PyVal))
    : result ProfileModels.DefiningContextConstraint :=
  match (list_to_map kv : gmap string PyVal) !! "relations" with
  | None | Some VNone => Ok {| ProfileModels.relations := None |}
  | Some (VList l) =>
      match mapM relation_of l with
      | Some rs => Ok {| ProfileModels.relations := Some rs |}
      | None => Raise (ValidationError (literal_error "relations"))
      end
  | Some _ => Raise (ValidationError (list_type "relations"))
  end.

(** A decoder of strict constraints that knows defining alleles without
    relations only. *)
Definition constraint_of_dict (kv : list (string * PyVal)) : result Constraint :=
  match (list_to_map kv : gmap string PyVal) !! "type" with
  | Some (VStr "DefiningAlleleConstraint") => Ok allele_without_relations
  | _ => Raise (ValidationError (union_tag_invalid "type" VNone))
  end.

Definition liftover_only_dict : list (string * PyVal) :=
  [("relations", VList [VStr "sequence_liftover"])].
(** Keyword arguments giving [constraints] as one object, and as a list. *)
Definition kwargs_object : gmap string PyVal :=
  <["constraints" := VDict liftover_only_dict]> ∅.
Definition kwargs_list : gmap string PyVal :=
  <["constraints" := VList [VDict liftover_only_dict]]> ∅.
(** Keyword arguments giving a list of one defining allele. *)
Definition allele_dict : list (string * PyVal) :=
  [("type", VStr "DefiningAlleleConstraint")].
Definition kwargs_alleles : gmap string PyVal :=
  <["constraints" := VList [VDict allele_dict]]> ∅.
(** Keyword arguments giving one object whose [relations] is empty. *)
Definition kwargs_empty_relations : gmap string PyVal :=
  <["constraints" := VDict [("relations", VList [])]]> ∅.

(** Collaborators that tell a value's type by its [type] key: an IRI is a
    string, a CopyChange the code of a gain. *)
Definition has_type (t : string) (x : PyVal) : bool :=
  match x with
  | VDict kv =>
      match (list_to_map kv : gmap string PyVal) !! "type" with
      | Some (VStr s) => bool_decide (s = t)
      | _ => false
      end
  | _ => false
  end.

Definition typed_collaborators : Models.Collaborators := {|
  Models.is_Allele := has_type "Allele";
  Models.is_IRI := λ x, match x with VStr _ => true | _ => false end;
  Models.is_variation_member := has_type "Allele";
  Models.is_SequenceLocation := has_type "SequenceLocation";
  Models.is_CopyChange :=
    λ x, match x with VStr s => bool_decide (s = "efo:0030070") | _ => false end;
  Models.is_Range := has_type "Range";
  Models.as_int := λ x, match x with VInt z => Some z | _ => None end;
  Models.domain_entity_ok := λ _, true
|}.

(** A protein consequence defined by reference. *)
Definition protein_by_reference : gmap string PyVal :=
  <["type" := VStr "ProteinSequenceConsequence"]>
    (<["definingContext" := VStr "ga4gh:VA.example"]> ∅).
(** A canonical allele defined by reference, with the default tag. *)
Definition canonical_by_reference : gmap string PyVal :=
  <["definingContext" := VStr "ga4gh:VA.example"]> ∅.
(** Three copies of an exactly matched location. *)
Definition three_copies : gmap string PyVal :=
  <["type" := VStr "CategoricalCnv"]>
    (<["location" := VDict [("type", VStr "SequenceLocation")]]>
       (<["locationMatchCharacteristic" := VStr "exact"]>
          (<["copies" := VInt 3]> ∅))).
(** A gain, as a change. *)
Definition a_gain : gmap string PyVal :=
  <["type" := VStr "NumberChange"]> (<["change" := VStr "efo:0030070"]> ∅).

End Samples.

(* ===================================================================== *)
(** * Facts about the Python fragment                                     *)
(* ===================================================================== *)

Import Py.

Section PyFacts.
Context {A : Type}.
Implicit Types (v : list A) (loc : string).

Lemma check_length_exact_1 loc v :
  check_length loc 1 (Some 1) v = Ok v ↔ ∃ c, v = [c].
Proof.
  destruct v as [|c [|d v]]; simpl; split; intros H; try discriminate; eauto.
  - by destruct H.
  - destruct H as [c' H]; discriminate.
Qed.

Lemma check_length_exact_1_cardinality loc v :
  length v ≠ 1 → is_cardinality_error (check_length loc 1 (Some 1) v) = true.
Proof. destruct v as [|c [|d v]]; simpl; intros H; done. Qed.

Lemma check_length_exact_2_cardinality loc v :
  length v ≠ 2 → is_cardinality_error (check_length loc 2 (Some 2) v) = true.
Proof. destruct v as [|c [|d [|e v]]]; simpl; intros H; done. Qed.

Lemma check_length_result loc lo hi v r :
  check_length loc lo hi v = Ok r → r = v.
Proof.
  unfold check_length. destruct (length v <? lo)%nat; [done|].
  destruct hi as [n|]; [destruct (n <? length v)%nat|]; congruence.
Qed.
End PyFacts.

(* ===================================================================== *)
(** * The strict profile: CanonicalAllele                                 *)
(* ===================================================================== *)

Section CanonicalAlleleFacts.
Import Recipes.

(** [sum(1 for r in rels if r.primaryCode == code)] counts on
    [primaryCode] alone. *)
Lemma count_code_primaryCode code rels :
  count_code code rels
  = length (filter (λ r, primaryCode r = value code) rels).
Proof.
  unfold count_code. f_equal. apply list_filter_iff. intros r.
  simpl. by rewrite bool_decide_eq_true.
Qed.

(** The validator on a one-element list, branch by branch. *)
Lemma CanonicalAllele_construct_singleton c :
  CanonicalAllele.construct [c] =
    if negb (isinstance c DefiningAlleleConstraint)
    then raise_ValueError "constraints" CanonicalAllele.err_class
    else match relations c with
         | None | Some [] =>
             raise_ValueError "constraints" CanonicalAllele.err_required
         | Some rels =>
             if negb (bool_decide (count_code LIFTOVER_TO rels = 1))
             then raise_ValueError "constraints" CanonicalAllele.err_liftover
             else if negb (bool_decide (count_code TRANSCRIBES_TO rels = 1))
             then raise_ValueError "constraints" CanonicalAllele.err_transcribes
             else Ok [c]
         end.
Proof.
  unfold CanonicalAllele.construct, CanonicalAllele.validate_constraints.
  simpl. destruct (isinstance c _); simpl; [|done].
  destruct (relations c) as [[|r rels]|]; simpl; done.
Qed.

Lemma CanonicalAllele_rejects_wrong_count c rels code :
  class c = DefiningAlleleConstraint →
  relations c = Some rels →
  code = LIFTOVER_TO ∨ code = TRANSCRIBES_TO →
  count_code code rels ≠ 1 →
  is_constraint_violation (CanonicalAllele.construct [c]) = true.
Proof.
  intros Hc Hr Hcode Hn. rewrite CanonicalAllele_construct_singleton.
  unfold isinstance. rewrite bool_decide_eq_true_2 by done. simpl.
  rewrite Hr. destruct rels as [|r rels]; [done|].
  destruct Hcode as [-> | ->].
  - by rewrite (bool_decide_eq_false_2 _ Hn).
  - destruct (bool_decide (count_code LIFTOVER_TO _ = 1)); simpl; [|done].
    by rewrite (bool_decide_eq_false_2 _ Hn).
Qed.

Lemma CanonicalAllele_accepts c rels :
  class c = DefiningAlleleConstraint →
  relations c = Some rels →
  count_code LIFTOVER_TO rels = 1 →
  count_code TRANSCRIBES_TO rels = 1 →
  CanonicalAllele.construct [c] = Ok [c].
Proof.
  intros Hc Hr Hl Ht. rewrite CanonicalAllele_construct_singleton.
  unfold isinstance. rewrite bool_decide_eq_true_2 by done. simpl.
  rewrite Hr. destruct rels as [|r rels]; [done|].
  by rewrite !bool_decide_eq_true_2.
Qed.
End CanonicalAlleleFacts.

(** C1. Strict CanonicalAllele: a [constraints] list whose length is not 1
    fails with a cardinality error; one DefiningAlleleConstraint whose
    relations hold exactly one "liftover_to" and exactly one
    "transcribes_to" (counted on [primaryCode]) is accepted; and for each of
    the two codes a count other than 1 (zero, or two and more) makes
    construction fail. *)
Theorem C1_canonical_allele_strict :
  (∀ v : list Recipes.Constraint,
     length v ≠ 1 →
     is_cardinality_error (Recipes.CanonicalAllele.construct v) = true)
  ∧ (∀ c rels,
       Recipes.class c = Recipes.DefiningAlleleConstraint →
       Recipes.relations c = Some rels →
       length (filter (λ r, Recipes.primaryCode r = "liftover_to") rels) = 1 →
       length (filter (λ r, Recipes.primaryCode r = "transcribes_to") rels) = 1 →
       Recipes.CanonicalAllele.construct [c] = Ok [c])
  ∧ (∀ c rels code,
       Recipes.class c = Recipes.DefiningAlleleConstraint →
       Recipes.relations c = Some rels →
       code = "liftover_to" ∨ code = "transcribes_to" →
       length (filter (λ r, Recipes.primaryCode r = code) rels) ≠ 1 →
       is_ok (Recipes.CanonicalAllele.construct [c]) = false
       ∧ is_constraint_violation (Recipes.CanonicalAllele.construct [c]) = true).
Proof.
  split; [|split].
  - intros v Hv. unfold Recipes.CanonicalAllele.construct.
    pose proof (check_length_exact_1_cardinality "constraints" v Hv) as H.
    destruct (check_length _ _ _ v) as [?|[[]| |]]; done.
  - intros c rels Hc Hr Hl Ht.
    apply (CanonicalAllele_accepts c rels Hc Hr);
      by rewrite count_code_primaryCode.
  - intros c rels code Hc Hr Hcode Hn.
    assert (is_constraint_violation (Recipes.CanonicalAllele.construct [c]) = true) as H.
    { destruct Hcode as [-> | ->].
      + apply (CanonicalAllele_rejects_wrong_count c rels Recipes.LIFTOVER_TO);
          auto. by rewrite count_code_primaryCode.
      + apply (CanonicalAllele_rejects_wrong_count c rels Recipes.TRANSCRIBES_TO);
          auto. by rewrite count_code_primaryCode. }
    split; [|done].
    by destruct (Recipes.CanonicalAllele.construct [c]).
Qed.

(** C1, at sample inputs: the empty list and a two-element list, the
    canonical constraint, and a constraint with two "liftover_to"
    relations. *)
Lemma C1_canonical_allele_strict_witness :
  is_cardinality_error (Recipes.CanonicalAllele.construct []) = true
  ∧ is_cardinality_error
      (Recipes.CanonicalAllele.construct [Samples.canonical; Samples.canonical])
    = true
  ∧ Recipes.CanonicalAllele.construct [Samples.canonical]
    = Ok [Samples.canonical]
  ∧ is_ok (Recipes.CanonicalAllele.construct [Samples.canonical_twice]) = false
  ∧ is_ok (Recipes.CanonicalAllele.construct [Samples.canonical_no_transcript])
    = false.
Proof.
  destruct C1_canonical_allele_strict as (Hcard & Hok & Hbad).
  split; [apply Hcard; simpl; lia|].
  split; [apply Hcard; simpl; lia|].
  split; [eapply Hok; reflexivity|].
  split.
  - eapply (Hbad _ _ "liftover_to"); [reflexivity|reflexivity|by left|].
    vm_compute. lia.
  - eapply (Hbad _ _ "transcribes_to"); [reflexivity|reflexivity|by right|].
    vm_compute. lia.
Defined.

(** C9. In the strict CanonicalAllele the index [v[0]] is in bounds: a list
    that passes [min_length=1, max_length=1] has exactly one element, the
    validator runs only on such a list, so construction never ends in an
    [IndexError]; the validator alone raises it on the empty list only. *)
Theorem C9_canonical_allele_index_in_bounds :
  (∀ (v r : list Recipes.Constraint),
     check_length "constraints" 1 (Some 1) v = Ok r →
     ∃ c, r = [c] ∧ r !! 0 = Some c)
  ∧ (∀ v msg, Recipes.CanonicalAllele.construct v ≠ Raise (IndexError msg))
  ∧ (∀ v, (∃ msg, Recipes.CanonicalAllele.validate_constraints v
                  = Raise (IndexError msg)) ↔ v = []).
Proof.
  split; [|split].
  - intros v r H. pose proof (check_length_result _ _ _ _ _ H) as ->.
    apply check_length_exact_1 in H as [c ->]. eauto.
  - intros v msg. destruct v as [|c [|d v]]; [done| |done].
    rewrite CanonicalAllele_construct_singleton.
    destruct (negb _); [done|].
    destruct (Recipes.relations c) as [[|r rels]|]; try done.
    repeat (destruct (negb _); [done|]). done.
  - intros v. split.
    + intros [msg H]. destruct v as [|c v]; [done|].
      unfold Recipes.CanonicalAllele.validate_constraints in H. simpl in H.
      destruct (negb _); [done|]. destruct (negb _); [done|].
      destruct (Recipes.relations c) as [rels|]; simpl in H; [|done].
      repeat (destruct (negb _); [done|]). done.
    + intros ->. eauto.
Qed.

(** C9, at the canonical one-element list. *)
Lemma C9_canonical_allele_index_in_bounds_witness :
  ∃ c, [Samples.canonical] = [c] ∧ [Samples.canonical] !! 0 = Some c.
Proof.
  exact (proj1 C9_canonical_allele_index_in_bounds
           [Samples.canonical] [Samples.canonical] eq_refl).
Defined.

(* ===================================================================== *)
(** * The strict profile: ProteinSequenceConsequence                      *)
(* ===================================================================== *)

Section ProteinSequenceConsequenceFacts.
Import Recipes.

Lemma item_present c rels :
  relations c = Some rels →
  ProteinSequenceConsequence.item c = Ok (ProteinSequenceConsequence.satisfies c).
Proof.
  intros H. unfold ProteinSequenceConsequence.item, ProteinSequenceConsequence.satisfies.
  by rewrite H.
Qed.

(** When every constraint carries a list of relations, [any] is the
    plain disjunction. *)
Lemma any_item_present v :
  Forall (λ c, relations c ≠ None) v →
  any ProteinSequenceConsequence.item v = Ok (existsb ProteinSequenceConsequence.satisfies v).
Proof.
  induction 1 as [|c v Hc _ IH]; [done|]. simpl.
  destruct (relations c) as [rels|] eqn:E; [|done].
  rewrite (item_present c rels E). simpl.
  destruct (ProteinSequenceConsequence.satisfies c); simpl; [done|]. exact IH.
Qed.

Lemma existsb_Permutation {A} (f : A → bool) (l l' : list A) :
  l ≡ₚ l' → existsb f l = existsb f l'.
Proof.
  induction 1 as [|x l l' _ IH|x y l|l l' l'' _ IH1 _ IH2]; simpl.
  - done.
  - by rewrite IH.
  - by destruct (f x), (f y).
  - by rewrite IH1.
Qed.

Lemma ProteinSequenceConsequence_construct_present v :
  Forall (λ c, relations c ≠ None) v →
  ProteinSequenceConsequence.construct v =
    if (length v <? 1)%nat
    then Raise (ValidationError (too_short "constraints" 1 (length v)))
    else if existsb ProteinSequenceConsequence.satisfies v then Ok v
    else raise_ValueError "constraints" ProteinSequenceConsequence.err_msg.
Proof.
  intros H. unfold ProteinSequenceConsequence.construct, check_length.
  destruct (length v <? 1)%nat; [done|]. simpl.
  unfold ProteinSequenceConsequence.validate_constraints.
  rewrite (any_item_present v H). simpl.
  by destruct (existsb ProteinSequenceConsequence.satisfies v).
Qed.
End ProteinSequenceConsequenceFacts.

(** C3, on the code.  The docstring asks that at least one constraint be a
    DefiningAlleleConstraint with exactly one "translates_from" relation.
    A constraint given without [relations] makes the validator raise
    [TypeError] when it is reached: alone it fails, but not as a constraint
    violation, and a valid constraint added after it is never looked at. *)
Theorem C3_protein_absent_relations_raise :
  Recipes.ProteinSequenceConsequence.construct [Samples.allele_without_relations]
  = Raise (TypeError "'NoneType' object is not iterable")
  ∧ is_constraint_violation
      (Recipes.ProteinSequenceConsequence.construct
         [Samples.allele_without_relations]) = false
  ∧ Recipes.ProteinSequenceConsequence.satisfies Samples.protein = true
  ∧ Recipes.ProteinSequenceConsequence.construct
      ([Samples.allele_without_relations] ++ [Samples.protein])
    = Raise (TypeError "'NoneType' object is not iterable").
Proof. repeat split. Qed.

(** C8, on the code.  The outcome of the ProteinSequenceConsequence
    validator depends on the order of [constraints]: with the valid
    constraint first [any] stops before the constraint without [relations],
    in the other order the validator raises. *)
Theorem C8_protein_order_dependent :
  [Samples.protein; Samples.allele_without_relations]
    ≡ₚ [Samples.allele_without_relations; Samples.protein]
  ∧ Recipes.ProteinSequenceConsequence.construct
      [Samples.protein; Samples.allele_without_relations]
    = Ok [Samples.protein; Samples.allele_without_relations]
  ∧ Recipes.ProteinSequenceConsequence.construct
      [Samples.allele_without_relations; Samples.protein]
    = Raise (TypeError "'NoneType' object is not iterable").
Proof. split; [apply Permutation_swap|]. by split. Qed.

(* ===================================================================== *)
(** * The strict profile: CategoricalCnv                                  *)
(* ===================================================================== *)

Section CategoricalCnvFacts.
Import Recipes.

(** The loop computes two disjunctions over the list. *)
Lemma foldl_step st v :
  foldl CategoricalCnv.step st v =
    {| CategoricalCnv.def_loc_constr_found :=
         CategoricalCnv.def_loc_constr_found st
         || existsb CategoricalCnv.def_loc_test v;
       CategoricalCnv.copy_constr_found :=
         CategoricalCnv.copy_constr_found st
         || existsb CategoricalCnv.copy_test v |}.
Proof.
  revert st. induction v as [|c v IH]; intros [d k]; simpl.
  - by rewrite !orb_false_r.
  - rewrite IH. simpl. destruct d, k; simpl; done.
Qed.

Lemma loop_existsb v :
  CategoricalCnv.loop v =
    {| CategoricalCnv.def_loc_constr_found :=
         existsb CategoricalCnv.def_loc_test v;
       CategoricalCnv.copy_constr_found :=
         existsb CategoricalCnv.copy_test v |}.
Proof. unfold CategoricalCnv.loop. by rewrite foldl_step. Qed.

(** An enumeration member is not among relation objects. *)
Lemma member_not_among_objects code (rels : list RelationObject) :
  py_in (EnumMember code) (Obj <$> rels) = false.
Proof. induction rels as [|r rels IH]; [done|]. simpl. exact IH. Qed.

Lemma def_loc_test_false c : CategoricalCnv.def_loc_test c = false.
Proof.
  unfold CategoricalCnv.def_loc_test.
  by rewrite member_not_among_objects, andb_false_r.
Qed.

Lemma existsb_def_loc_test v :
  existsb CategoricalCnv.def_loc_test v = false.
Proof.
  induction v as [|c v IH]; [done|]. simpl.
  by rewrite def_loc_test_false, IH.
Qed.

(** The validator accepts exactly when both flags are set. *)
Lemma CategoricalCnv_validate_is_ok v :
  is_ok (CategoricalCnv.validate_constraints v)
  = CategoricalCnv.def_loc_constr_found (CategoricalCnv.loop v)
    && CategoricalCnv.copy_constr_found (CategoricalCnv.loop v).
Proof.
  unfold CategoricalCnv.validate_constraints.
  by destruct (CategoricalCnv.loop v) as [[] []].
Qed.

Lemma CategoricalCnv_validate_rejects v :
  CategoricalCnv.validate_constraints v
  = raise_ValueError "constraints" CategoricalCnv.err_def_loc.
Proof.
  unfold CategoricalCnv.validate_constraints.
  by rewrite loop_existsb, existsb_def_loc_test.
Qed.
End CategoricalCnvFacts.

(** C2, on the code.  The test [Relation.LIFTOVER_TO in constraint.relations]
    looks for the enumeration member among the relation objects and never
    finds it, so a DefiningLocationConstraint with a "liftover_to" relation
    next to a CopyCountConstraint is rejected with the very message that asks
    for such a relation; no list of constraints is accepted. *)
Theorem C2_cnv_liftover_not_found :
  Recipes.count_code Recipes.LIFTOVER_TO
    (default [] (Recipes.relations Samples.location_liftover)) = 1
  ∧ Recipes.CategoricalCnv.construct
      [Samples.location_liftover; Samples.copy_count]
    = raise_ValueError "constraints"
        "Must contain a `DefiningLocationConstraint` with at least one relation where `primaryCode` is liftover_to."
  ∧ (∀ v, is_ok (Recipes.CategoricalCnv.construct v) = false).
Proof.
  split; [done|]. split; [done|].
  intros v. unfold Recipes.CategoricalCnv.construct.
  destruct (check_length _ _ _ v) as [r|e]; [|done]. simpl.
  by rewrite CategoricalCnv_validate_rejects.
Qed.

(* ===================================================================== *)
(** * models.py: DescribedVariation and the union                         *)
(* ===================================================================== *)

Section ModelsFacts.
Import Models.
Variable ext : Collaborators.
Implicit Types m : gmap string PyVal.

(** The label of a validated object is the string the input gave. *)
Lemma DescribedVariation_label m x :
  DescribedVariation_validate ext m = Ok x →
  m !! "label" = Some (VStr (dv_label x)).
Proof.
  unfold DescribedVariation_validate. intros H.
  destruct (base_fields ext m) as [mem|]; [simpl in H|done].
  destruct (literal_field DESCRIBED_VAR (m !! "type")); [simpl in H|done].
  destruct (m !! "label") as [[]|]; try done. simpl in H.
  destruct (optional_StrictStr _ _); [simpl in H|done].
  by injection H as <-.
Qed.

Lemma DescribedVariation_label_required m :
  m !! "label" = None → is_ok (DescribedVariation_validate ext m) = false.
Proof.
  intros H. destruct (DescribedVariation_validate ext m) as [x|] eqn:E; [|done].
  apply DescribedVariation_label in E. congruence.
Qed.

Lemma DescribedVariation_accepts m s mem d :
  domain_entity_ok ext m = true →
  members_field ext (m !! "members") = Ok mem →
  literal_field DESCRIBED_VAR (m !! "type") = Ok () →
  m !! "label" = Some (VStr s) →
  optional_StrictStr "description" (m !! "description") = Ok d →
  DescribedVariation_validate ext m
  = Ok {| dv_members := mem; dv_label := s; dv_description := d |}.
Proof.
  intros He Hm Ht Hl Hd. unfold DescribedVariation_validate, base_fields.
  rewrite He. simpl. rewrite Hm. simpl. rewrite Ht. simpl.
  rewrite Hl. simpl. by rewrite Hd.
Qed.

(** A value the union returns is of the kind its tag names. *)
Lemma CategoricalVariation_tag m v :
  CategoricalVariation_validate ext m = Ok v →
  m !! "type" = Some (VStr (value (kind v))).
Proof.
  unfold CategoricalVariation_validate.
  destruct (m !! "type") as [[| | |tag| |]|]; try done.
  repeat case_decide; subst; try done; intros Hv.
  - destruct (CanonicalAllele_validate ext m); [|done]. by injection Hv as <-.
  - destruct (CategoricalCnv_validate ext m); [|done]. by injection Hv as <-.
  - destruct (DescribedVariation_validate ext m); [|done]. by injection Hv as <-.
  - destruct (ProteinSequenceConsequence_validate ext m); [|done].
    by injection Hv as <-.
Qed.

Lemma CategoricalVariation_no_tag m :
  m !! "type" = None →
  CategoricalVariation_validate ext m
  = Raise (ValidationError (union_tag_not_found "type")).
Proof. unfold CategoricalVariation_validate. by intros ->. Qed.

Lemma CategoricalVariation_unknown_tag m s :
  m !! "type" = Some (VStr s) →
  s ∉ union_tags →
  CategoricalVariation_validate ext m
  = Raise (ValidationError (union_tag_invalid "type" (VStr s))).
Proof.
  unfold CategoricalVariation_validate, union_tags. intros -> Hs.
  repeat case_decide; subst; try done; exfalso; apply Hs; set_solver.
Qed.
End ModelsFacts.

(** C6, as amended.  A validated DescribedVariation has the string the
    input gave under [label]: without the field construction fails, and
    once the other fields pass every string is accepted as the label, the
    empty one included. *)
Theorem C6_described_variation_label :
  ∀ ext (m : gmap string PyVal),
    (m !! "label" = None →
     is_ok (Models.DescribedVariation_validate ext m) = false)
    ∧ (∀ x, Models.DescribedVariation_validate ext m = Ok x →
            m !! "label" = Some (VStr (Models.dv_label x)))
    ∧ (∀ s mem d,
         Models.domain_entity_ok ext m = true →
         Models.members_field ext (m !! "members") = Ok mem →
         Models.literal_field Models.DESCRIBED_VAR (m !! "type") = Ok () →
         m !! "label" = Some (VStr s) →
         Models.optional_StrictStr "description" (m !! "description") = Ok d →
         Models.DescribedVariation_validate ext m
         = Ok {| Models.dv_members := mem; Models.dv_label := s;
                 Models.dv_description := d |}).
Proof.
  intros ext m. split; [|split].
  - apply DescribedVariation_label_required.
  - apply DescribedVariation_label.
  - apply DescribedVariation_accepts.
Qed.

(** C6, at a mapping without [label] and at one whose label is empty. *)
Lemma C6_described_variation_label_witness :
  is_ok (Models.DescribedVariation_validate Models.own_fields_only
           Samples.unknown_kind) = false
  ∧ Samples.described_empty_label !! "label" = Some (VStr "")
  ∧ Models.DescribedVariation_validate Models.own_fields_only
      Samples.described_empty_label
    = Ok {| Models.dv_members := None; Models.dv_label := "";
            Models.dv_description := None |}.
Proof.
  split; [|split].
  - apply (proj1 (C6_described_variation_label Models.own_fields_only
                    Samples.unknown_kind)).
    reflexivity.
  - apply (proj1 (proj2 (C6_described_variation_label Models.own_fields_only
                           Samples.described_empty_label))
             {| Models.dv_members := None; Models.dv_label := "";
                Models.dv_description := None |}).
    reflexivity.
  - apply (proj2 (proj2 (C6_described_variation_label Models.own_fields_only
                           Samples.described_empty_label)));
      reflexivity.
Defined.

(** C6 as stated fails: an empty-string label is accepted. *)
Lemma C6_empty_label_accepted :
  Samples.described_empty_label !! "label" = Some (VStr "")
  ∧ Models.DescribedVariation_validate Models.own_fields_only
      Samples.described_empty_label
    = Ok {| Models.dv_members := None; Models.dv_label := "";
            Models.dv_description := None |}.
Proof. split; reflexivity. Qed.

(** C7. Decoding a mapping into the CategoricalVariation union fails with a
    decode error whenever [type] is absent or is a string other than the
    four kind names; and a decoded value is always of the kind its tag
    names, so nothing is coerced to a default kind. *)
Theorem C7_union_rejects_unknown_type :
  (∀ ext (m : gmap string PyVal),
     m !! "type" = None
     ∨ (∃ s, m !! "type" = Some (VStr s)
             ∧ s ∉ ["CanonicalAllele"; "CategoricalCnv";
                    "DescribedVariation"; "ProteinSequenceConsequence"]) →
     is_decode_error (Models.CategoricalVariation_validate ext m) = true
     ∧ is_ok (Models.CategoricalVariation_validate ext m) = false)
  ∧ (∀ ext (m : gmap string PyVal) v,
       Models.CategoricalVariation_validate ext m = Ok v →
       m !! "type" = Some (VStr (Models.value (Models.kind v)))).
Proof.
  split.
  - intros ext m [H | (s & H & Hs)].
    + by rewrite (CategoricalVariation_no_tag ext m H).
    + by rewrite (CategoricalVariation_unknown_tag ext m s H Hs).
  - apply CategoricalVariation_tag.
Qed.

(** C7, at a mapping without a tag, at one tagged "NumberCount", and at a
    described variation. *)
Lemma C7_union_rejects_unknown_type_witness :
  is_decode_error
    (Models.CategoricalVariation_validate Models.own_fields_only Samples.untagged)
  = true
  ∧ is_decode_error
      (Models.CategoricalVariation_validate Models.own_fields_only
         Samples.unknown_kind)
    = true
  ∧ Samples.described_empty_label !! "type" = Some (VStr "DescribedVariation").
Proof.
  split; [|split].
  - apply (proj1 C7_union_rejects_unknown_type). left. reflexivity.
  - apply (proj1 C7_union_rejects_unknown_type). right.
    exists "NumberCount". split; [reflexivity|].
    rewrite !elem_of_cons, elem_of_nil. intros [|[|[|[|[]]]]]; discriminate.
  - apply (proj2 C7_union_rejects_unknown_type Models.own_fields_only
             Samples.described_empty_label
             (Models.root_DescribedVariation
                {| Models.dv_members := None; Models.dv_label := "";
                   Models.dv_description := None |})).
    reflexivity.
Defined.

(* ===================================================================== *)
(** * The permissive profile                                              *)
(* ===================================================================== *)

Section ProfileModelsFacts.
Import ProfileModels.
Implicit Types v : DefiningContextConstraint.

(** The guard [if v.relations]: nothing is checked, nothing is logged. *)
Lemma ProteinSequenceConsequenceProperties_skips v :
  truthy (relations v) = false →
  ProteinSequenceConsequenceProperties.validate_constraints v = (v, []).
Proof.
  intros H. unfold ProteinSequenceConsequenceProperties.validate_constraints.
  by rewrite H.
Qed.

Lemma CanonicalAlleleProperties_skips v :
  truthy (relations v) = false →
  CanonicalAlleleProperties.validate_constraints v = (v, []).
Proof.
  intros H. unfold CanonicalAlleleProperties.validate_constraints.
  by rewrite H.
Qed.

Lemma CategoricalCnvProperties_skips v :
  truthy (relations v) = false →
  CategoricalCnvProperties.validate_constraints v = (v, []).
Proof.
  intros H. unfold CategoricalCnvProperties.validate_constraints.
  by rewrite H.
Qed.

Lemma truthy_false {A} (o : option (list A)) :
  o = None ∨ o = Some [] → truthy o = false.
Proof. by intros [-> | ->]. Qed.

Lemma truthy_true {A} (l : list A) : l ≠ [] → truthy (Some l) = true.
Proof. by destruct l. Qed.

(** A non-empty list that lacks a required relation: one warning, whose
    argument is the set of required relations the list lacks. *)
Lemma CanonicalAlleleProperties_warns v rels r :
  relations v = Some rels →
  rels ≠ [] →
  r ∈ CanonicalAlleleProperties.required_relations →
  r ∉ rels →
  CanonicalAlleleProperties.validate_constraints v
  = (v, [warning msg_relations
           (ArgRelations (CanonicalAlleleProperties.required_relations
                          ∖ list_to_set rels))]).
Proof.
  intros Hv Hne Hr Hn. unfold CanonicalAlleleProperties.validate_constraints.
  rewrite Hv, (truthy_true rels Hne).
  change (default [] (Some rels)) with rels. cbv zeta.
  rewrite bool_decide_eq_false_2; [done|].
  intros Hsub. apply Hn. apply Hsub in Hr. by apply elem_of_list_to_set in Hr.
Qed.

(** Both required relations present: nothing is logged. *)
Lemma CanonicalAlleleProperties_complete v rels :
  relations v = Some rels →
  SEQUENCE_LIFTOVER ∈ rels →
  TRANSCRIPT_PROJECTION ∈ rels →
  CanonicalAlleleProperties.validate_constraints v = (v, []).
Proof.
  intros Hv Hl Ht. unfold CanonicalAlleleProperties.validate_constraints.
  assert (rels ≠ []) as Hne by (intros ->; by apply elem_of_nil in Hl).
  rewrite Hv, (truthy_true rels Hne).
  change (default [] (Some rels)) with rels. cbv zeta.
  rewrite bool_decide_eq_true_2; [done|].
  unfold CanonicalAlleleProperties.required_relations.
  intros r Hr. apply elem_of_list_to_set.
  apply elem_of_union in Hr as [Hr|Hr]; apply elem_of_singleton in Hr;
    by subst.
Qed.

(** The field takes a mapping and hands the decoded object to the
    validator; a list is not a mapping. *)
Lemma constraints_field_list of_dict validate kwargs l :
  kwargs !! "constraints" = Some (VList l) →
  constraints_field of_dict validate kwargs
  = Raise (ValidationError (model_type "constraints")).
Proof. unfold constraints_field. by intros ->. Qed.

Lemma constraints_field_object of_dict validate kwargs d :
  kwargs !! "constraints" = Some (VDict d) →
  constraints_field of_dict validate kwargs
  = (v ← of_dict d; mret (validate v)).
Proof. unfold constraints_field. by intros ->. Qed.
End ProfileModelsFacts.

Section StrictFieldFacts.
Import Recipes.

Lemma strict_constraints_field_object of_dict construct kwargs d :
  kwargs !! "constraints" = Some (VDict d) →
  constraints_field of_dict construct kwargs
  = Raise (ValidationError (list_type "constraints")).
Proof. unfold constraints_field. by intros ->. Qed.

Lemma strict_constraints_field_list of_dict construct kwargs l :
  kwargs !! "constraints" = Some (VList l) →
  constraints_field of_dict construct kwargs
  = (items ← mapM (model_field of_dict "constraints") l; construct items).
Proof. unfold constraints_field. by intros ->. Qed.

(** An empty or absent list of relations fails each rule of the strict
    profile. *)
Lemma CanonicalAllele_rejects_falsy c :
  truthy (relations c) = false →
  is_ok (CanonicalAllele.construct [c]) = false.
Proof.
  intros H. rewrite CanonicalAllele_construct_singleton.
  destruct (negb _); [done|].
  by destruct (relations c) as [[|r rels]|].
Qed.

Lemma item_falsy c :
  truthy (relations c) = false →
  ProteinSequenceConsequence.item c ≠ Ok true.
Proof.
  intros H. unfold ProteinSequenceConsequence.item.
  destruct (relations c) as [[|r rels]|]; simpl; try done.
  by rewrite andb_false_r.
Qed.

Lemma ProteinSequenceConsequence_rejects_falsy c :
  truthy (relations c) = false →
  is_ok (ProteinSequenceConsequence.construct [c]) = false.
Proof.
  intros H. pose proof (item_falsy c H) as Hi.
  unfold ProteinSequenceConsequence.construct. simpl.
  unfold ProteinSequenceConsequence.validate_constraints. simpl.
  destruct (ProteinSequenceConsequence.item c) as [[|]|]; done.
Qed.

Lemma count_code_absent code rels :
  (∀ r, r ∈ rels → primaryCode r ≠ value code) →
  count_code code rels = 0.
Proof.
  rewrite count_code_primaryCode.
  induction rels as [|r rels IH]; intros H; [done|].
  rewrite filter_cons, decide_False.
  - apply IH. intros r' Hr'. apply H. by right.
  - apply H. by left.
Qed.

Lemma def_loc_test_falsy c :
  truthy (relations c) = false → CategoricalCnv.def_loc_test c = false.
Proof.
  intros H. unfold CategoricalCnv.def_loc_test.
  by rewrite H, andb_false_r.
Qed.
End StrictFieldFacts.

(** C4, as amended.  Strict profile: a constraint whose [relations] is
    absent or empty never satisfies a relation rule (CanonicalAllele and
    ProteinSequenceConsequence reject it as the only constraint, the
    ProteinSequenceConsequence test is never true of it, the CategoricalCnv
    defining-location test is false of it).  Permissive profile: the three
    validators return such a constraint and log nothing. *)
Theorem C4_empty_or_absent_relations :
  (∀ c : Recipes.Constraint,
     Recipes.relations c = None ∨ Recipes.relations c = Some [] →
     is_ok (Recipes.CanonicalAllele.construct [c]) = false
     ∧ Recipes.ProteinSequenceConsequence.item c ≠ Ok true
     ∧ is_ok (Recipes.ProteinSequenceConsequence.construct [c]) = false
     ∧ Recipes.CategoricalCnv.def_loc_test c = false)
  ∧ (∀ v : ProfileModels.DefiningContextConstraint,
       ProfileModels.relations v = None ∨ ProfileModels.relations v = Some [] →
       ProfileModels.ProteinSequenceConsequenceProperties.validate_constraints v
       = (v, [])
       ∧ ProfileModels.CanonicalAlleleProperties.validate_constraints v = (v, [])
       ∧ ProfileModels.CategoricalCnvProperties.validate_constraints v = (v, [])).
Proof.
  split.
  - intros c H. apply truthy_false in H.
    split; [by apply CanonicalAllele_rejects_falsy|].
    split; [by apply item_falsy|].
    split; [by apply ProteinSequenceConsequence_rejects_falsy|].
    by apply def_loc_test_falsy.
  - intros v H. apply truthy_false in H.
    split; [by apply ProteinSequenceConsequenceProperties_skips|].
    split; [by apply CanonicalAlleleProperties_skips|].
    by apply CategoricalCnvProperties_skips.
Qed.

(** C4, at a defining allele with an empty list of relations and at a
    permissive constraint without relations. *)
Lemma C4_empty_or_absent_relations_witness :
  is_ok (Recipes.CanonicalAllele.construct [Samples.allele_empty_relations])
  = false
  ∧ ProfileModels.CanonicalAlleleProperties.validate_constraints
      Samples.context_without_relations
    = (Samples.context_without_relations, []).
Proof.
  split.
  - apply (proj1 C4_empty_or_absent_relations Samples.allele_empty_relations).
    right. reflexivity.
  - apply (proj2 C4_empty_or_absent_relations Samples.context_without_relations).
    left. reflexivity.
Defined.

(** C4 as stated fails in the permissive profile: with [relations] empty or
    absent no warning is emitted. *)
Lemma C4_permissive_no_warning :
  snd (ProfileModels.CanonicalAlleleProperties.validate_constraints
         Samples.context_empty_relations) = []
  ∧ snd (ProfileModels.CanonicalAlleleProperties.validate_constraints
           Samples.context_without_relations) = []
  ∧ snd (ProfileModels.ProteinSequenceConsequenceProperties.validate_constraints
           Samples.context_empty_relations) = []
  ∧ snd (ProfileModels.CategoricalCnvProperties.validate_constraints
           Samples.context_empty_relations) = [].
Proof. repeat split. Qed.

(** C5, as amended.  Permissive CanonicalAllele: one constraint object whose
    [relations] is a non-empty list lacking a required relation is accepted,
    and one warning is logged whose argument is the set of required
    relations the list lacks.  Strict CanonicalAllele: one defining allele
    whose relations hold no relation with a required code is rejected. *)
Theorem C5_permissive_warns_strict_rejects :
  (∀ of_dict (kwargs : gmap string PyVal) d v rels r,
     kwargs !! "constraints" = Some (VDict d) →
     of_dict d = Ok v →
     ProfileModels.relations v = Some rels →
     rels ≠ [] →
     r ∈ ProfileModels.CanonicalAlleleProperties.required_relations →
     r ∉ rels →
     ProfileModels.CanonicalAlleleProperties_validate of_dict kwargs
     = Ok (v, [ProfileModels.warning ProfileModels.msg_relations
                 (ProfileModels.ArgRelations
                    (ProfileModels.CanonicalAlleleProperties.required_relations
                     ∖ list_to_set rels))])
     ∧ r ∈ ProfileModels.CanonicalAlleleProperties.required_relations
           ∖ list_to_set rels)
  ∧ (∀ c rels code,
       Recipes.class c = Recipes.DefiningAlleleConstraint →
       Recipes.relations c = Some rels →
       code = Recipes.LIFTOVER_TO ∨ code = Recipes.TRANSCRIBES_TO →
       (∀ r, r ∈ rels → Recipes.primaryCode r ≠ Recipes.value code) →
       is_ok (Recipes.CanonicalAllele.construct [c]) = false).
Proof.
  split.
  - intros of_dict kwargs d v rels r Hk Hd Hv Hne Hr Hn. split.
    + unfold ProfileModels.CanonicalAlleleProperties_validate.
      rewrite (constraints_field_object _ _ _ d Hk), Hd. simpl.
      by rewrite (CanonicalAlleleProperties_warns v rels r).
    + apply elem_of_difference. split; [done|].
      by rewrite elem_of_list_to_set.
  - intros c rels code Hc Hr Hcode Hn.
    pose proof (CanonicalAllele_rejects_wrong_count c rels code Hc Hr Hcode) as H.
    rewrite (count_code_absent code rels Hn) in H.
    destruct (Recipes.CanonicalAllele.construct [c]); [|done].
    discriminate H. lia.
Qed.

(** C5, at a constraint that has the sequence liftover and lacks the
    transcript projection, and at a defining allele that has "liftover_to"
    and lacks "transcribes_to". *)
Lemma C5_permissive_warns_strict_rejects_witness :
  ProfileModels.CanonicalAlleleProperties_validate Samples.context_of_dict
    Samples.kwargs_object
  = Ok (Samples.context_liftover_only,
        [ProfileModels.warning ProfileModels.msg_relations
           (ProfileModels.ArgRelations
              (ProfileModels.CanonicalAlleleProperties.required_relations
               ∖ list_to_set [ProfileModels.SEQUENCE_LIFTOVER]))])
  ∧ is_ok (Recipes.CanonicalAllele.construct [Samples.canonical_no_transcript])
    = false.
Proof.
  split.
  - apply (proj1 C5_permissive_warns_strict_rejects Samples.context_of_dict
             Samples.kwargs_object Samples.liftover_only_dict
             Samples.context_liftover_only
             [ProfileModels.SEQUENCE_LIFTOVER]
             ProfileModels.TRANSCRIPT_PROJECTION);
      try reflexivity.
    + discriminate.
    + rewrite list_elem_of_singleton. discriminate.
  - apply (proj2 C5_permissive_warns_strict_rejects
             Samples.canonical_no_transcript [Samples.liftover_to]
             Recipes.TRANSCRIBES_TO); try reflexivity.
    + by right.
    + intros r Hr. apply list_elem_of_singleton in Hr as ->. discriminate.
Defined.

(** C5 as stated fails when the list of relations is empty: both required
    relations are missing from it, construction succeeds, and nothing is
    logged. *)
Lemma C5_empty_relations_no_warning :
  ProfileModels.relations Samples.context_empty_relations = Some []
  ∧ ProfileModels.CanonicalAlleleProperties_validate Samples.context_of_dict
      Samples.kwargs_empty_relations
    = Ok (Samples.context_empty_relations, []).
Proof. split; reflexivity. Qed.

(** C10. In the permissive profile [constraints] is one constraint object:
    a list given for it fails structural validation in each of the three
    mixin classes, and a mapping is decoded and handed to the validator.
    In the strict profile the field is a list: a list is decoded item by
    item, and one object given for it is rejected. *)
Theorem C10_permissive_constraints_one_object :
  (∀ of_context of_constraint (kwargs : gmap string PyVal) l,
     kwargs !! "constraints" = Some (VList l) →
     ProfileModels.ProteinSequenceConsequenceProperties_validate of_context kwargs
     = Raise (ValidationError (model_type "constraints"))
     ∧ ProfileModels.CanonicalAlleleProperties_validate of_context kwargs
       = Raise (ValidationError (model_type "constraints"))
     ∧ ProfileModels.CategoricalCnvProperties_validate of_constraint kwargs
       = Raise (ValidationError (model_type "constraints")))
  ∧ (∀ of_context of_constraint (kwargs : gmap string PyVal) d,
       kwargs !! "constraints" = Some (VDict d) →
       ProfileModels.ProteinSequenceConsequenceProperties_validate of_context kwargs
       = (v ← of_context d;
          mret (ProfileModels.ProteinSequenceConsequenceProperties.validate_constraints v))
       ∧ ProfileModels.CanonicalAlleleProperties_validate of_context kwargs
         = (v ← of_context d;
            mret (ProfileModels.CanonicalAlleleProperties.validate_constraints v))
       ∧ ProfileModels.CategoricalCnvProperties_validate of_constraint kwargs
         = (v ← of_constraint d;
            mret (ProfileModels.CategoricalCnvProperties.validate_constraints v)))
  ∧ (∀ of_dict (kwargs : gmap string PyVal) l,
       kwargs !! "constraints" = Some (VList l) →
       Recipes.ProteinSequenceConsequence_validate of_dict kwargs
       = (items ← mapM (model_field of_dict "constraints") l;
          Recipes.ProteinSequenceConsequence.construct items)
       ∧ Recipes.CanonicalAllele_validate of_dict kwargs
         = (items ← mapM (model_field of_dict "constraints") l;
            Recipes.CanonicalAllele.construct items)
       ∧ Recipes.CategoricalCnv_validate of_dict kwargs
         = (items ← mapM (model_field of_dict "constraints") l;
            Recipes.CategoricalCnv.construct items))
  ∧ (∀ of_dict (kwargs : gmap string PyVal) d,
       kwargs !! "constraints" = Some (VDict d) →
       Recipes.ProteinSequenceConsequence_validate of_dict kwargs
       = Raise (ValidationError (list_type "constraints"))
       ∧ Recipes.CanonicalAllele_validate of_dict kwargs
         = Raise (ValidationError (list_type "constraints"))
       ∧ Recipes.CategoricalCnv_validate of_dict kwargs
         = Raise (ValidationError (list_type "constraints"))).
Proof.
  split; [|split; [|split]].
  - intros of_context of_constraint kwargs l H.
    repeat split; by apply constraints_field_list with l.
  - intros of_context of_constraint kwargs d H.
    repeat split; by apply constraints_field_object.
  - intros of_dict kwargs l H.
    repeat split; by apply strict_constraints_field_list.
  - intros of_dict kwargs d H.
    repeat split; by apply strict_constraints_field_object with d.
Qed.

(** C10, at keyword arguments that give [constraints] as a list of one
    object, and as one object. *)
Lemma C10_permissive_constraints_one_object_witness :
  (ProfileModels.ProteinSequenceConsequenceProperties_validate
     Samples.context_of_dict Samples.kwargs_list
   = Raise (ValidationError (model_type "constraints"))
   ∧ ProfileModels.CanonicalAlleleProperties_validate
       Samples.context_of_dict Samples.kwargs_list
     = Raise (ValidationError (model_type "constraints"))
   ∧ ProfileModels.CategoricalCnvProperties_validate
       Samples.context_of_dict Samples.kwargs_list
     = Raise (ValidationError (model_type "constraints")))
  ∧ ProfileModels.CategoricalCnvProperties_validate
      Samples.context_of_dict Samples.kwargs_object
    = Ok (Samples.context_liftover_only, [])
  ∧ is_cardinality_error
      (Recipes.CategoricalCnv_validate Samples.constraint_of_dict
         Samples.kwargs_alleles) = true
  ∧ Recipes.CanonicalAllele_validate Samples.constraint_of_dict
      Samples.kwargs_object
    = Raise (ValidationError (list_type "constraints")).
Proof.
  destruct C10_permissive_constraints_one_object as (Hl & Ho & Hsl & Hso).
  split; [|split; [|split]].
  - apply (Hl Samples.context_of_dict Samples.context_of_dict
             Samples.kwargs_list [VDict Samples.liftover_only_dict]).
    reflexivity.
  - destruct (Ho Samples.context_of_dict Samples.context_of_dict
                Samples.kwargs_object Samples.liftover_only_dict eq_refl)
      as (_ & _ & ->).
    reflexivity.
  - destruct (Hsl Samples.constraint_of_dict Samples.kwargs_alleles
                [VDict Samples.allele_dict] eq_refl)
      as (_ & _ & ->).
    reflexivity.
  - apply (Hso Samples.constraint_of_dict Samples.kwargs_object
             Samples.liftover_only_dict).
    reflexivity.
Defined.

(* ===================================================================== *)
(** * Further properties of the strict validators                         *)
(* ===================================================================== *)

(** The CategoricalCnv loop does not depend on the order of the list: the
    two flags, and with them the outcome, are the same for a permutation. *)
Theorem CategoricalCnv_order_independent :
  ∀ v v' : list Recipes.Constraint,
    v ≡ₚ v' →
    Recipes.CategoricalCnv.loop v = Recipes.CategoricalCnv.loop v'
    ∧ is_ok (Recipes.CategoricalCnv.construct v)
      = is_ok (Recipes.CategoricalCnv.construct v').
Proof.
  intros v v' H.
  assert (Recipes.CategoricalCnv.loop v = Recipes.CategoricalCnv.loop v') as E.
  { rewrite !loop_existsb.
    by rewrite (existsb_Permutation _ v v' H),
               (existsb_Permutation Recipes.CategoricalCnv.copy_test v v' H). }
  split; [done|].
  unfold Recipes.CategoricalCnv.construct, check_length.
  rewrite (Permutation_length H).
  destruct (length v' <? 2)%nat; [done|].
  destruct (2 <? length v')%nat; [done|]. simpl.
  by rewrite !CategoricalCnv_validate_is_ok, E.
Qed.

Lemma CategoricalCnv_order_independent_witness :
  Recipes.CategoricalCnv.loop [Samples.location_other; Samples.copy_count]
  = Recipes.CategoricalCnv.loop [Samples.copy_count; Samples.location_other]
  ∧ is_ok (Recipes.CategoricalCnv.construct
             [Samples.location_other; Samples.copy_count])
    = is_ok (Recipes.CategoricalCnv.construct
               [Samples.copy_count; Samples.location_other]).
Proof.
  apply CategoricalCnv_order_independent. apply Permutation_swap.
Defined.

(** CategoricalCnv takes exactly two constraints: any other length is a
    cardinality error, whatever the constraints are. *)
Theorem CategoricalCnv_cardinality :
  ∀ v : list Recipes.Constraint,
    length v ≠ 2 →
    is_cardinality_error (Recipes.CategoricalCnv.construct v) = true.
Proof.
  intros v Hv. unfold Recipes.CategoricalCnv.construct.
  pose proof (check_length_exact_2_cardinality "constraints" v Hv) as H.
  destruct (check_length _ _ _ v) as [?|[[]| |]]; done.
Qed.

Lemma CategoricalCnv_cardinality_witness :
  is_cardinality_error
    (Recipes.CategoricalCnv.construct
       [Samples.location_liftover; Samples.copy_count; Samples.copy_change])
  = true.
Proof. apply CategoricalCnv_cardinality. simpl. lia. Defined.

(** ProteinSequenceConsequence on lists whose constraints all carry a list
    of relations: construction succeeds exactly when the list is not empty
    and some constraint is a DefiningAlleleConstraint with exactly one
    "translates_from" relation; a non-empty list without such a constraint
    is a constraint violation. *)
Theorem ProteinSequenceConsequence_relations_present :
  ∀ v : list Recipes.Constraint,
    Forall (λ c, Recipes.relations c ≠ None) v →
    (Recipes.ProteinSequenceConsequence.construct v = Ok v
     ↔ v ≠ [] ∧ ∃ c, c ∈ v
                     ∧ Recipes.ProteinSequenceConsequence.satisfies c = true)
    ∧ (v ≠ [] →
       (∀ c, c ∈ v → Recipes.ProteinSequenceConsequence.satisfies c = false) →
       is_constraint_violation (Recipes.ProteinSequenceConsequence.construct v)
       = true).
Proof.
  intros v H. rewrite (ProteinSequenceConsequence_construct_present v H).
  split.
  - destruct v as [|c0 v]; [split; [done|by intros []]|].
    change (length (c0 :: v) <? 1)%nat with false. cbv iota.
    destruct (existsb _ (c0 :: v)) eqn:E.
    + split; [|done]. intros _. split; [done|].
      apply existsb_exists in E as (c & Hin & Hc).
      exists c. by rewrite list_elem_of_In.
    + split; [done|]. intros (_ & c & Hin & Hc).
      assert (existsb Recipes.ProteinSequenceConsequence.satisfies (c0 :: v)
              = true) as E'.
      { apply existsb_exists. exists c. by rewrite <- list_elem_of_In. }
      congruence.
  - intros Hne Hall. destruct v as [|c0 v]; [done|].
    change (length (c0 :: v) <? 1)%nat with false. cbv iota.
    destruct (existsb _ (c0 :: v)) eqn:E; [|done].
    apply existsb_exists in E as (c & Hin & Hc).
    rewrite <- list_elem_of_In in Hin. rewrite (Hall c Hin) in Hc. done.
Qed.

Lemma ProteinSequenceConsequence_relations_present_witness :
  Recipes.ProteinSequenceConsequence.construct
    [Samples.allele_empty_relations; Samples.location_other; Samples.protein]
  = Ok [Samples.allele_empty_relations; Samples.location_other; Samples.protein]
  ∧ is_constraint_violation
      (Recipes.ProteinSequenceConsequence.construct
         [Samples.allele_empty_relations; Samples.location_other])
    = true.
Proof.
  split.
  - apply (proj1 (ProteinSequenceConsequence_relations_present
                    [Samples.allele_empty_relations; Samples.location_other;
                     Samples.protein]
                    ltac:(repeat constructor; discriminate))).
    split; [discriminate|]. exists Samples.protein.
    split; [|reflexivity]. do 2 right. left.
  - apply (proj2 (ProteinSequenceConsequence_relations_present
                    [Samples.allele_empty_relations; Samples.location_other]
                    ltac:(repeat constructor; discriminate)));
      [discriminate|].
    intros c Hc. apply elem_of_cons in Hc as [-> | Hc]; [reflexivity|].
    apply list_elem_of_singleton in Hc as ->. reflexivity.
Defined.

(** ProteinSequenceConsequence on lists whose constraints all carry a list
    of relations: the outcome is the same for every permutation. *)
Theorem ProteinSequenceConsequence_order_independent_present :
  ∀ v v' : list Recipes.Constraint,
    Forall (λ c, Recipes.relations c ≠ None) v →
    v ≡ₚ v' →
    is_ok (Recipes.ProteinSequenceConsequence.construct v)
    = is_ok (Recipes.ProteinSequenceConsequence.construct v').
Proof.
  intros v v' H Hp.
  assert (Forall (λ c, Recipes.relations c ≠ None) v') as H'
    by (by rewrite <- Hp).
  rewrite (ProteinSequenceConsequence_construct_present v H),
          (ProteinSequenceConsequence_construct_present v' H').
  rewrite (Permutation_length Hp), (existsb_Permutation _ v v' Hp).
  destruct (length v' <? 1)%nat; [done|].
  by destruct (existsb _ v').
Qed.

Lemma ProteinSequenceConsequence_order_independent_present_witness :
  is_ok (Recipes.ProteinSequenceConsequence.construct
           [Samples.protein; Samples.location_other])
  = is_ok (Recipes.ProteinSequenceConsequence.construct
             [Samples.location_other; Samples.protein]).
Proof.
  apply ProteinSequenceConsequence_order_independent_present.
  - repeat constructor; discriminate.
  - apply Permutation_swap.
Defined.

(** Both required relations present in the permissive CanonicalAllele:
    the constraint is returned and nothing is logged. *)
Theorem CanonicalAlleleProperties_no_warning_when_complete :
  ∀ (v : ProfileModels.DefiningContextConstraint) rels,
    ProfileModels.relations v = Some rels →
    ProfileModels.SEQUENCE_LIFTOVER ∈ rels →
    ProfileModels.TRANSCRIPT_PROJECTION ∈ rels →
    ProfileModels.CanonicalAlleleProperties.validate_constraints v = (v, []).
Proof. apply CanonicalAlleleProperties_complete. Qed.

Lemma CanonicalAlleleProperties_no_warning_when_complete_witness :
  ProfileModels.CanonicalAlleleProperties.validate_constraints
    {| ProfileModels.relations :=
         Some [ProfileModels.TRANSCRIPT_PROJECTION;
               ProfileModels.SEQUENCE_LIFTOVER] |}
  = ({| ProfileModels.relations :=
          Some [ProfileModels.TRANSCRIPT_PROJECTION;
                ProfileModels.SEQUENCE_LIFTOVER] |}, []).
Proof.
  apply (CanonicalAlleleProperties_no_warning_when_complete _
           [ProfileModels.TRANSCRIPT_PROJECTION; ProfileModels.SEQUENCE_LIFTOVER]).
  - reflexivity.
  - right. left.
  - left.
Defined.

(* ===================================================================== *)
(** * The strict validators, outcome by outcome                           *)
(* ===================================================================== *)

Section AnyFacts.
Context {A : Type}.
Implicit Types (f : A → result bool) (l : list A).

(** [any] returns what the first element that is not false returns. *)
Lemma any_first_decisive f l r :
  r ≠ Ok false →
  any f l = r
  ↔ ∃ l1 x l2, l = (l1 ++ x :: l2)%list
               ∧ Forall (λ y, f y = Ok false) l1 ∧ f x = r.
Proof.
  intros Hr. induction l as [|a l IH]; simpl.
  - split; [congruence|]. intros (l1 & x & l2 & E & _). by destruct l1.
  - destruct (f a) as [[|]|e] eqn:Ea; simpl.
    + split.
      * intros <-. exists [], a, l. by repeat split.
      * intros ([|y l1] & x & l2 & E & Hl1 & Hx); simplify_eq/=;
          try congruence.
        apply Forall_cons in Hl1 as [Hy _]. congruence.
    + rewrite IH. split.
      * intros (l1 & x & l2 & -> & Hl1 & Hx).
        exists (a :: l1), x, l2. repeat split; [|done]. by constructor.
      * intros ([|y l1] & x & l2 & E & Hl1 & Hx); simplify_eq/=;
          try congruence.
        apply Forall_cons in Hl1 as [_ Hl1]. by exists l1, x, l2.
    + split.
      * intros <-. exists [], a, l. by repeat split.
      * intros ([|y l1] & x & l2 & E & Hl1 & Hx); simplify_eq/=;
          try congruence.
        apply Forall_cons in Hl1 as [Hy _]. congruence.
Qed.
End AnyFacts.

Section ProteinItemFacts.
Import Recipes.

Lemma item_true_iff c :
  ProteinSequenceConsequence.item c = Ok true
  ↔ ProteinSequenceConsequence.satisfies c = true.
Proof.
  unfold ProteinSequenceConsequence.item, ProteinSequenceConsequence.satisfies.
  destruct (relations c) as [rels|]; simpl.
  - split; [by intros [= ->]|by intros ->].
  - split; [done|]. by rewrite andb_false_r.
Qed.

Lemma item_false_iff c :
  ProteinSequenceConsequence.item c = Ok false
  ↔ relations c ≠ None ∧ ProteinSequenceConsequence.satisfies c = false.
Proof.
  unfold ProteinSequenceConsequence.item, ProteinSequenceConsequence.satisfies.
  destruct (relations c) as [rels|]; simpl.
  - split; [by intros [= ->]|by intros [_ ->]].
  - split; [done|]. by intros [].
Qed.

Lemma item_raise_iff c e :
  ProteinSequenceConsequence.item c = Raise e
  ↔ relations c = None ∧ e = TypeError "'NoneType' object is not iterable".
Proof.
  unfold ProteinSequenceConsequence.item.
  destruct (relations c) as [rels|]; simpl.
  - split; [done|]. by intros [].
  - split; [by intros [= <-]|by intros [_ ->]].
Qed.

Lemma Forall_item_false l :
  Forall (λ d, ProteinSequenceConsequence.item d = Ok false) l
  ↔ Forall (λ d, relations d ≠ None
                 ∧ ProteinSequenceConsequence.satisfies d = false) l.
Proof. apply Forall_proper; [|done]. intros d. apply item_false_iff. Qed.

(** Construction in terms of [any]. *)
Lemma ProteinSequenceConsequence_construct_any v :
  v ≠ [] →
  ProteinSequenceConsequence.construct v =
    match any ProteinSequenceConsequence.item v with
    | Ok true => Ok v
    | Ok false =>
        raise_ValueError "constraints" ProteinSequenceConsequence.err_msg
    | Raise e => Raise e
    end.
Proof.
  intros Hv. destruct v as [|c v]; [done|].
  change (ProteinSequenceConsequence.construct (c :: v))
    with (ProteinSequenceConsequence.validate_constraints (c :: v)).
  unfold ProteinSequenceConsequence.validate_constraints.
  by destruct (any ProteinSequenceConsequence.item (c :: v)) as [[|]|].
Qed.
End ProteinItemFacts.

(** ProteinSequenceConsequence, exactly.  The list is read from the left up
    to the first constraint that is not merely unsatisfying: construction
    succeeds when that constraint is a DefiningAlleleConstraint with exactly
    one "translates_from" relation, and raises [TypeError] when it is a
    constraint given without [relations]; every constraint before it carries
    a list of relations and does not satisfy the rule. *)
Theorem ProteinSequenceConsequence_first_decisive :
  ∀ v : list Recipes.Constraint,
    (Recipes.ProteinSequenceConsequence.construct v = Ok v
     ↔ ∃ l1 c l2,
         v = (l1 ++ c :: l2)%list
         ∧ Forall (λ d, Recipes.relations d ≠ None
                        ∧ Recipes.ProteinSequenceConsequence.satisfies d = false)
             l1
         ∧ Recipes.ProteinSequenceConsequence.satisfies c = true)
    ∧ (Recipes.ProteinSequenceConsequence.construct v
       = Raise (TypeError "'NoneType' object is not iterable")
       ↔ ∃ l1 c l2,
           v = (l1 ++ c :: l2)%list
           ∧ Forall (λ d, Recipes.relations d ≠ None
                          ∧ Recipes.ProteinSequenceConsequence.satisfies d = false)
               l1
           ∧ Recipes.relations c = None).
Proof.
  intros v. destruct (decide (v = [])) as [->|Hv].
  { split; (split; [done|]); intros (l1 & c & l2 & E & _); by destruct l1. }
  rewrite (ProteinSequenceConsequence_construct_any v Hv). split.
  - split.
    + destruct (any _ v) as [[|]|] eqn:E; try done. intros _.
      apply (any_first_decisive _ _ (Ok true)) in E
        as (l1 & c & l2 & ? & Hl1 & Hc); [|done].
      exists l1, c, l2. split; [done|].
      split; [by apply Forall_item_false|by apply item_true_iff].
    + intros (l1 & c & l2 & E & Hl1 & Hc).
      assert (any Recipes.ProteinSequenceConsequence.item v = Ok true) as ->;
        [|done].
      apply any_first_decisive; [done|]. exists l1, c, l2. split; [done|].
      split; [by apply Forall_item_false|by apply item_true_iff].
  - split.
    + destruct (any _ v) as [[|]|e] eqn:E; try done. intros [= ->].
      apply any_first_decisive in E as (l1 & c & l2 & ? & Hl1 & Hc); [|done].
      apply item_raise_iff in Hc as [Hc _].
      exists l1, c, l2. split; [done|].
      split; [by apply Forall_item_false|done].
    + intros (l1 & c & l2 & E & Hl1 & Hc).
      assert (any Recipes.ProteinSequenceConsequence.item v
              = Raise (TypeError "'NoneType' object is not iterable")) as ->;
        [|done].
      apply any_first_decisive; [done|]. exists l1, c, l2. split; [done|].
      split; [by apply Forall_item_false|by apply item_raise_iff].
Qed.

(** ProteinSequenceConsequence: a satisfying constraint makes construction
    succeed when every constraint before it carries a list of relations,
    whatever follows it; in particular when it comes first. *)
Theorem ProteinSequenceConsequence_valid_after_present :
  ∀ (l1 : list Recipes.Constraint) c l2,
    Forall (λ d, Recipes.relations d ≠ None) l1 →
    Recipes.ProteinSequenceConsequence.satisfies c = true →
    Recipes.ProteinSequenceConsequence.construct (l1 ++ c :: l2)%list
    = Ok (l1 ++ c :: l2)%list.
Proof.
  intros l1 c l2 Hl1 Hc.
  rewrite ProteinSequenceConsequence_construct_any by (by destruct l1).
  assert (any Recipes.ProteinSequenceConsequence.item (l1 ++ c :: l2)%list
          = Ok true) as ->; [|done].
  induction Hl1 as [|d l1 Hd _ IH]; simpl.
  - apply item_true_iff in Hc. by rewrite Hc.
  - destruct (Recipes.ProteinSequenceConsequence.satisfies d) eqn:E.
    + apply item_true_iff in E. by rewrite E.
    + assert (Recipes.ProteinSequenceConsequence.item d = Ok false) as ->
        by (by apply item_false_iff).
      exact IH.
Qed.

Lemma ProteinSequenceConsequence_valid_after_present_witness :
  Recipes.ProteinSequenceConsequence.construct
    [Samples.location_other; Samples.protein; Samples.allele_without_relations]
  = Ok [Samples.location_other; Samples.protein;
        Samples.allele_without_relations].
Proof.
  apply (ProteinSequenceConsequence_valid_after_present
           [Samples.location_other] Samples.protein
           [Samples.allele_without_relations]).
  - repeat constructor. discriminate.
  - reflexivity.
Defined.

(** CanonicalAllele, exactly: construction succeeds, returning the list it
    was given, when and only when the list is one DefiningAlleleConstraint
    whose relations hold exactly one "liftover_to" and exactly one
    "transcribes_to". *)
Theorem CanonicalAllele_accepts_iff :
  ∀ v r : list Recipes.Constraint,
    Recipes.CanonicalAllele.construct v = Ok r
    ↔ r = v
      ∧ ∃ c rels,
          v = [c]
          ∧ Recipes.class c = Recipes.DefiningAlleleConstraint
          ∧ Recipes.relations c = Some rels
          ∧ Recipes.count_code Recipes.LIFTOVER_TO rels = 1
          ∧ Recipes.count_code Recipes.TRANSCRIBES_TO rels = 1.
Proof.
  intros v r. split.
  - destruct v as [|c [|d v]]; [done| |done].
    rewrite CanonicalAllele_construct_singleton. unfold Recipes.isinstance.
    case_bool_decide as Hc; simpl; [|done].
    destruct (Recipes.relations c) as [[|x rels]|] eqn:Hr; try done.
    case_bool_decide as Hl; simpl; [|done].
    case_bool_decide as Ht; simpl; [|done].
    intros [= <-]. split; [done|]. by exists c, (x :: rels).
  - intros (-> & c & rels & -> & Hc & Hr & Hl & Ht).
    by apply CanonicalAllele_accepts with rels.
Qed.

(** CanonicalAllele and CategoricalCnv never end in an uncaught exception:
    every failure is a pydantic validation error. *)
Theorem strict_failures_are_validation_errors :
  ∀ (v : list Recipes.Constraint) e,
    Recipes.CanonicalAllele.construct v = Raise e
    ∨ Recipes.CategoricalCnv.construct v = Raise e →
    ∃ pe, e = ValidationError pe.
Proof.
  intros v e [H|H].
  - destruct v as [|c [|d v]]; [by injection H as <-; eauto| |
                                by injection H as <-; eauto].
    rewrite CanonicalAllele_construct_singleton in H.
    unfold raise_ValueError in H.
    destruct (negb _); [injection H as <-; eauto|].
    destruct (Recipes.relations c) as [[|x rels]|];
      try (injection H as <-; eauto).
    repeat (destruct (negb _); [injection H as <-; eauto|]). done.
  - unfold Recipes.CategoricalCnv.construct in H.
    destruct (check_length _ _ _ v) as [r|e'] eqn:E; simpl in H.
    + rewrite CategoricalCnv_validate_rejects in H.
      injection H as <-. eauto.
    + injection H as <-. unfold check_length in E.
      destruct (length v <? 2)%nat; [injection E as <-; eauto|].
      destruct (2 <? length v)%nat; [injection E as <-; eauto|done].
Qed.

Lemma strict_failures_are_validation_errors_witness :
  ∃ pe, ValidationError
          (value_error "constraints" Recipes.CanonicalAllele.err_required)
        = ValidationError pe.
Proof.
  apply (strict_failures_are_validation_errors
           [Samples.allele_without_relations]).
  left. reflexivity.
Defined.

(** The CategoricalCnv loop sets [copy_constr_found] exactly when some
    constraint of the list is a CopyCountConstraint or a
    CopyChangeConstraint. *)
Theorem CategoricalCnv_copy_flag :
  ∀ v : list Recipes.Constraint,
    Recipes.CategoricalCnv.copy_constr_found (Recipes.CategoricalCnv.loop v)
    = true
    ↔ ∃ c, c ∈ v ∧ (Recipes.class c = Recipes.CopyCountConstraint
                    ∨ Recipes.class c = Recipes.CopyChangeConstraint).
Proof.
  intros v. rewrite loop_existsb. simpl. rewrite existsb_exists.
  unfold Recipes.CategoricalCnv.copy_test, Recipes.isinstance.
  split; intros (c & Hin & Hc); exists c.
  - split; [by apply list_elem_of_In|].
    apply orb_true_iff in Hc as [Hc|Hc]; apply bool_decide_eq_true in Hc; auto.
  - split; [by apply list_elem_of_In|].
    apply orb_true_iff. destruct Hc as [Hc|Hc]; [left|right];
      by apply bool_decide_eq_true.
Qed.

Section ListFieldFacts.
Context {M : Type} (of_dict : list (string * PyVal) → result M).

(** A decoded list has one item for each input item, in order, each decoded
    from a mapping. *)
Lemma list_field_items loc l items :
  list_field of_dict loc (VList l) = Ok items →
  Forall2 (λ x c, ∃ d, x = VDict d ∧ of_dict d = Ok c) l items.
Proof.
  simpl. revert items. induction l as [|x l IH]; intros items H.
  - injection H as <-. constructor.
  - simpl in H. destruct x as [| | | | |d]; try done. simpl in H.
    destruct (of_dict d) as [c|] eqn:Ed; [|done]. simpl in H.
    destruct (mapM _ l) as [cs|] eqn:El; [|done].
    injection H as <-. constructor; [eauto|]. by apply IH.
Qed.

Lemma list_field_not_mapping loc l x :
  x ∈ l → (∀ d, x ≠ VDict d) →
  is_ok (list_field of_dict loc (VList l)) = false.
Proof.
  intros Hin Hx. destruct (list_field _ _ _) as [items|] eqn:E; [|done].
  apply list_field_items in E.
  apply list_elem_of_lookup in Hin as [i Hi].
  destruct (Forall2_lookup_l _ _ _ i x E Hi) as (c & _ & d & -> & _).
  by destruct (Hx d).
Qed.
End ListFieldFacts.

(** The strict [constraints] field, from the keyword arguments, for any of
    the three classes ([construct] is the class's length check and
    validator): a missing key and a value that is not a list are structural
    errors, a list with an item that is not a mapping is rejected, and when
    construction succeeds the validator ran on one decoded constraint per
    input item, in order. *)
Theorem strict_constraints_field_shape :
  ∀ (of_dict : list (string * PyVal) → result Recipes.Constraint)
    (construct : list Recipes.Constraint → result (list Recipes.Constraint))
    (kwargs : gmap string PyVal),
    (kwargs !! "constraints" = None →
     Recipes.constraints_field of_dict construct kwargs
     = Raise (ValidationError (missing "constraints")))
    ∧ (∀ x, kwargs !! "constraints" = Some x → (∀ l, x ≠ VList l) →
            Recipes.constraints_field of_dict construct kwargs
            = Raise (ValidationError (list_type "constraints")))
    ∧ (∀ l x, kwargs !! "constraints" = Some (VList l) →
              x ∈ l → (∀ d, x ≠ VDict d) →
              is_ok (Recipes.constraints_field of_dict construct kwargs) = false)
    ∧ (∀ l r, kwargs !! "constraints" = Some (VList l) →
              Recipes.constraints_field of_dict construct kwargs = Ok r →
              ∃ items,
                Forall2 (λ x c, ∃ d, x = VDict d ∧ of_dict d = Ok c) l items
                ∧ construct items = Ok r).
Proof.
  intros of_dict construct kwargs. unfold Recipes.constraints_field.
  split; [by intros ->|]. split; [|split].
  - intros x -> Hx. destruct x; try done. by destruct (Hx l).
  - intros l x -> Hin Hx.
    pose proof (list_field_not_mapping of_dict "constraints" l x Hin Hx) as H.
    by destruct (list_field _ _ _).
  - intros l r -> H.
    destruct (list_field of_dict "constraints" (VList l)) as [items|] eqn:E;
      [|done].
    exists items. split; [by apply list_field_items with "constraints"|done].
Qed.

Lemma strict_constraints_field_shape_witness :
  Recipes.CanonicalAllele_validate Samples.constraint_of_dict Samples.untagged
  = Raise (ValidationError (missing "constraints"))
  ∧ Recipes.CanonicalAllele_validate Samples.constraint_of_dict
      Samples.kwargs_object
    = Raise (ValidationError (list_type "constraints"))
  ∧ is_ok (Recipes.ProteinSequenceConsequence_validate
             Samples.constraint_of_dict
             (<["constraints" := VList [VDict Samples.allele_dict; VStr "x"]]> ∅))
    = false.
Proof.
  split; [|split].
  - apply (proj1 (strict_constraints_field_shape Samples.constraint_of_dict
                    Recipes.CanonicalAllele.construct Samples.untagged)).
    reflexivity.
  - apply (proj1 (proj2 (strict_constraints_field_shape
                           Samples.constraint_of_dict
                           Recipes.CanonicalAllele.construct
                           Samples.kwargs_object))
             (VDict Samples.liftover_only_dict)); [reflexivity|discriminate].
  - apply (proj1 (proj2 (proj2 (strict_constraints_field_shape
                                  Samples.constraint_of_dict
                                  Recipes.ProteinSequenceConsequence.construct
                                  _)))
             [VDict Samples.allele_dict; VStr "x"] (VStr "x"));
      [reflexivity| |discriminate].
    right. left.
Defined.

(* ===================================================================== *)
(** * models.py: what a validated object says about its input             *)
(* ===================================================================== *)

Section KindFacts.
Import Models.
Variable ext : Collaborators.
Implicit Types m : gmap string PyVal.

Lemma literal_field_Ok t o :
  literal_field t o = Ok () ↔ o = None ∨ o = Some (VStr (value t)).
Proof.
  unfold literal_field. destruct o as [[| | |s| |]|];
    try (split; [done|by intros [|]]).
  - case_decide as E.
    + subst. split; [by right|done].
    + split; [done|]. intros [|[= ->]]; done.
  - split; [by left|done].
Qed.

Lemma literal_field_not_decode_error t o :
  is_decode_error (literal_field t o) = false.
Proof.
  unfold literal_field. destruct o as [[| | |s| |]|]; try done.
  by case_decide.
Qed.

Lemma base_fields_not_decode_error m :
  is_decode_error (base_fields ext m) = false.
Proof.
  unfold base_fields, members_field. destruct (negb _); [done|].
  destruct (m !! "members") as [[| | | |l|]|]; try done.
  by destruct (forallb _ l).
Qed.

Lemma required_external_Ok loc accepts o x :
  required_external loc accepts o = Ok x ↔ o = Some x ∧ accepts x = true.
Proof.
  unfold required_external. destruct o as [y|]; [|by split; [|intros []]].
  destruct (accepts y) eqn:E.
  - split; [by intros [= ->]|by intros [[= ->] _]].
  - split; [done|]. intros [[= ->] ?]. congruence.
Qed.

Lemma LocationMatchCharacteristic_of_value s c :
  LocationMatchCharacteristic_of s = Some c
  ↔ s = LocationMatchCharacteristic_value c.
Proof.
  unfold LocationMatchCharacteristic_of. split.
  - repeat case_decide; intros [= <-]; by subst.
  - intros ->. by destruct c.
Qed.
End KindFacts.

(** A validated object carries the tag of its own kind: each of the seven
    validators accepts a mapping only when [type] is absent (the default
    applies) or is the kind's own name. *)
Theorem validated_type_is_own_kind :
  ∀ ext (m : gmap string PyVal),
    let own t := m !! "type" = None
                 ∨ m !! "type" = Some (VStr (Models.value t)) in
    (is_ok (Models.ProteinSequenceConsequence_validate ext m) = true →
     own Models.PROTEIN_SEQ_CONS)
    ∧ (is_ok (Models.CanonicalAllele_validate ext m) = true →
       own Models.CANONICAL_ALLELE)
    ∧ (is_ok (Models.CategoricalCnv_validate ext m) = true →
       own Models.CATEGORICAL_CNV)
    ∧ (is_ok (Models.DescribedVariation_validate ext m) = true →
       own Models.DESCRIBED_VAR)
    ∧ (is_ok (Models.NumberCount_validate ext m) = true →
       own Models.NUMBER_COUNT)
    ∧ (is_ok (Models.NumberChange_validate ext m) = true →
       own Models.NUMBER_CHANGE)
    ∧ (is_ok (Models.QuantityVariance_validate m) = true →
       own Models.QUANTITY_VARIANCE).
Proof.
  intros ext m own.
  assert (∀ t, (∃ u, Models.literal_field t (m !! "type") = Ok u) → own t)
    as Hown.
  { intros t [[] H]. by apply literal_field_Ok in H. }
  repeat split; intros H; apply Hown.
  - unfold Models.ProteinSequenceConsequence_validate in H.
    destruct (Models.base_fields ext m); [simpl in H|done].
    destruct (Models.literal_field _ _); [eauto|done].
  - unfold Models.CanonicalAllele_validate in H.
    destruct (Models.base_fields ext m); [simpl in H|done].
    destruct (Models.literal_field _ _); [eauto|done].
  - unfold Models.CategoricalCnv_validate in H.
    destruct (Models.base_fields ext m); [simpl in H|done].
    destruct (Models.literal_field _ _); [eauto|done].
  - unfold Models.DescribedVariation_validate in H.
    destruct (Models.base_fields ext m); [simpl in H|done].
    destruct (Models.literal_field _ _); [eauto|done].
  - unfold Models.NumberCount_validate in H.
    destruct (Models.literal_field _ _); [eauto|done].
  - unfold Models.NumberChange_validate in H.
    destruct (Models.literal_field _ _); [eauto|done].
  - unfold Models.QuantityVariance_validate in H.
    destruct (Models.literal_field _ _); [eauto|done].
Qed.

Lemma validated_type_is_own_kind_witness :
  Samples.described_empty_label !! "type" = None
  ∨ Samples.described_empty_label !! "type"
    = Some (VStr (Models.value Models.DESCRIBED_VAR)).
Proof.
  apply (validated_type_is_own_kind Models.own_fields_only
           Samples.described_empty_label).
  reflexivity.
Defined.

Section UnionFacts.
Import Models.
Variable ext : Collaborators.
Implicit Types m : gmap string PyVal.

Lemma member_not_decode_error m :
  is_decode_error (CanonicalAllele_validate ext m) = false
  ∧ is_decode_error (CategoricalCnv_validate ext m) = false
  ∧ is_decode_error (DescribedVariation_validate ext m) = false
  ∧ is_decode_error (ProteinSequenceConsequence_validate ext m) = false.
Proof.
  pose proof (base_fields_not_decode_error ext m) as Hb.
  repeat split.
  - unfold CanonicalAllele_validate.
    destruct (base_fields ext m); [simpl|done].
    pose proof (literal_field_not_decode_error CANONICAL_ALLELE (m !! "type")).
    destruct (literal_field _ _); [simpl|done].
    unfold required_external. destruct (m !! "definingContext"); [|done].
    by destruct (Allele_or_IRI ext _).
  - unfold CategoricalCnv_validate.
    destruct (base_fields ext m); [simpl|done].
    pose proof (literal_field_not_decode_error CATEGORICAL_CNV (m !! "type")).
    destruct (literal_field _ _); [simpl|done].
    unfold required_external. destruct (m !! "location"); [|done].
    destruct (is_SequenceLocation ext _); [simpl|done].
    unfold locationMatchCharacteristic_field.
    destruct (m !! "locationMatchCharacteristic") as [[| | |s| |]|];
      try done; try destruct (LocationMatchCharacteristic_of s);
      try done; simpl;
      unfold optional_external;
      (destruct (m !! "copyChange") as [[]|];
       try destruct (is_CopyChange ext _); simpl; try done;
       destruct (m !! "copies") as [[]|];
       try destruct (int_or_Range ext _); simpl; done).
  - unfold DescribedVariation_validate.
    destruct (base_fields ext m); [simpl|done].
    pose proof (literal_field_not_decode_error DESCRIBED_VAR (m !! "type")).
    destruct (literal_field _ _); [simpl|done].
    destruct (m !! "label") as [[]|]; try done. simpl.
    by destruct (m !! "description") as [[]|].
  - unfold ProteinSequenceConsequence_validate.
    destruct (base_fields ext m); [simpl|done].
    pose proof (literal_field_not_decode_error PROTEIN_SEQ_CONS (m !! "type")).
    destruct (literal_field _ _); [simpl|done].
    unfold required_external. destruct (m !! "definingContext"); [|done].
    by destruct (Allele_or_IRI ext _).
Qed.

Lemma bind_mret_Ok {A B} (r : result A) (f : A → B) b :
  (x ← r; mret (f x)) = Ok b ↔ ∃ x, r = Ok x ∧ b = f x.
Proof.
  destruct r as [a|e]; simpl.
  - split; [intros [= <-]; eauto|by intros (x & [= ->] & ->)].
  - split; [done|by intros (x & ? & _)].
Qed.

Lemma is_decode_error_bind {A B} (r : result A) (f : A → B) :
  is_decode_error (x ← r; mret (f x)) = is_decode_error r.
Proof. by destruct r. Qed.
End UnionFacts.

(** The union is the tagged sum of its four members: it returns an object
    of a kind exactly when the tag is that kind's name and the kind's own
    validator returns the object.  No member is tried under another
    member's tag. *)
Theorem CategoricalVariation_dispatch :
  ∀ ext (m : gmap string PyVal),
    (∀ x, Models.CategoricalVariation_validate ext m
          = Ok (Models.root_CanonicalAllele x)
          ↔ m !! "type" = Some (VStr "CanonicalAllele")
            ∧ Models.CanonicalAllele_validate ext m = Ok x)
    ∧ (∀ x, Models.CategoricalVariation_validate ext m
            = Ok (Models.root_CategoricalCnv x)
            ↔ m !! "type" = Some (VStr "CategoricalCnv")
              ∧ Models.CategoricalCnv_validate ext m = Ok x)
    ∧ (∀ x, Models.CategoricalVariation_validate ext m
            = Ok (Models.root_DescribedVariation x)
            ↔ m !! "type" = Some (VStr "DescribedVariation")
              ∧ Models.DescribedVariation_validate ext m = Ok x)
    ∧ (∀ x, Models.CategoricalVariation_validate ext m
            = Ok (Models.root_ProteinSequenceConsequence x)
            ↔ m !! "type" = Some (VStr "ProteinSequenceConsequence")
              ∧ Models.ProteinSequenceConsequence_validate ext m = Ok x).
Proof.
  intros ext m. unfold Models.CategoricalVariation_validate.
  destruct (m !! "type") as [[| | |tag| |]|];
    try (repeat apply conj; intros x; (split; [done|by intros [? _]])).
  repeat case_decide; subst; repeat apply conj; intros x;
    rewrite ?bind_mret_Ok;
    (split;
     [ first [done | intros (y & Hy & E); simplify_eq; done]
     | intros [E Hv]; simplify_eq; first [done | by exists x] ]).
Qed.

(** The union fails with a decode error exactly when the tag is not a
    string naming one of its four members; the members never raise one.
    So "NumberCount", "NumberChange" and "QuantityVariance", though names of
    the kind enumeration, are not decodable through the union. *)
Theorem CategoricalVariation_decode_error_iff :
  ∀ ext (m : gmap string PyVal),
    (is_decode_error (Models.CategoricalVariation_validate ext m) = true
     ↔ ¬ ∃ s, m !! "type" = Some (VStr s) ∧ s ∈ Models.union_tags)
    ∧ (∀ t, m !! "type" = Some (VStr (Models.value t)) →
            is_decode_error (Models.CategoricalVariation_validate ext m)
            = bool_decide (t ∈ [Models.NUMBER_COUNT; Models.NUMBER_CHANGE;
                                Models.QUANTITY_VARIANCE])).
Proof.
  intros ext m.
  destruct (member_not_decode_error ext m) as (Hca & Hcnv & Hdv & Hpsc).
  assert (∀ s, m !! "type" = Some (VStr s) →
            is_decode_error (Models.CategoricalVariation_validate ext m)
            = negb (bool_decide (s ∈ Models.union_tags))) as Htag.
  { intros s Hs. unfold Models.CategoricalVariation_validate. rewrite Hs.
    unfold Models.union_tags.
    destruct (decide (s = Models.value Models.CANONICAL_ALLELE)) as [->|N1];
      [by rewrite is_decode_error_bind, Hca|].
    destruct (decide (s = Models.value Models.CATEGORICAL_CNV)) as [->|N2];
      [by rewrite is_decode_error_bind, Hcnv|].
    destruct (decide (s = Models.value Models.DESCRIBED_VAR)) as [->|N3];
      [by rewrite is_decode_error_bind, Hdv|].
    destruct (decide (s = Models.value Models.PROTEIN_SEQ_CONS)) as [->|N4];
      [by rewrite is_decode_error_bind, Hpsc|].
    rewrite bool_decide_eq_false_2; [done|].
    rewrite !elem_of_cons, elem_of_nil. intros [|[|[|[|[]]]]]; done. }
  split.
  - destruct (m !! "type") as [[| | |s| |]|] eqn:E;
      try (unfold Models.CategoricalVariation_validate; rewrite E;
           split; [by intros _ (s & [=] & _)|done]).
    rewrite (Htag s eq_refl). rewrite negb_true_iff, bool_decide_eq_false.
    split.
    + intros Hn (s' & [= <-] & Hin). done.
    + intros Hn Hin. apply Hn. eauto.
  - intros t Ht. rewrite (Htag _ Ht). by destruct t.
Qed.

Lemma CategoricalVariation_decode_error_iff_witness :
  is_decode_error
    (Models.CategoricalVariation_validate Models.own_fields_only
       Samples.unknown_kind)
  = bool_decide (Models.NUMBER_COUNT
                 ∈ [Models.NUMBER_COUNT; Models.NUMBER_CHANGE;
                    Models.QUANTITY_VARIANCE]).
Proof.
  apply (proj2 (CategoricalVariation_decode_error_iff Models.own_fields_only
                  Samples.unknown_kind) Models.NUMBER_COUNT).
  reflexivity.
Defined.

(** The defining object of a validated kind is the value the input gave,
    and the collaborator accepted it: [definingContext] (an Allele or an
    IRI) for ProteinSequenceConsequence and CanonicalAllele, [location] (a
    SequenceLocation) for CategoricalCnv.  Without the field, construction
    fails. *)
Theorem defining_field_required :
  ∀ ext (m : gmap string PyVal),
    (∀ x, Models.ProteinSequenceConsequence_validate ext m = Ok x →
          m !! "definingContext" = Some (Models.psc_definingContext x)
          ∧ (Models.is_Allele ext (Models.psc_definingContext x) = true
             ∨ Models.is_IRI ext (Models.psc_definingContext x) = true))
    ∧ (∀ x, Models.CanonicalAllele_validate ext m = Ok x →
            m !! "definingContext" = Some (Models.ca_definingContext x)
            ∧ (Models.is_Allele ext (Models.ca_definingContext x) = true
               ∨ Models.is_IRI ext (Models.ca_definingContext x) = true))
    ∧ (∀ x, Models.CategoricalCnv_validate ext m = Ok x →
            m !! "location" = Some (Models.cnv_location x)
            ∧ Models.is_SequenceLocation ext (Models.cnv_location x) = true).
Proof.
  intros ext m. split; [|split]; intros x H.
  - unfold Models.ProteinSequenceConsequence_validate in H.
    destruct (Models.base_fields ext m); [simpl in H|done].
    destruct (Models.literal_field _ _); [simpl in H|done].
    destruct (Models.required_external _ _ _) as [ctx|] eqn:E; [|done].
    injection H as <-. apply required_external_Ok in E as [-> E].
    split; [done|]. by apply orb_true_iff.
  - unfold Models.CanonicalAllele_validate in H.
    destruct (Models.base_fields ext m); [simpl in H|done].
    destruct (Models.literal_field _ _); [simpl in H|done].
    destruct (Models.required_external _ _ _) as [ctx|] eqn:E; [|done].
    injection H as <-. apply required_external_Ok in E as [-> E].
    split; [done|]. by apply orb_true_iff.
  - unfold Models.CategoricalCnv_validate in H.
    destruct (Models.base_fields ext m); [simpl in H|done].
    destruct (Models.literal_field _ _); [simpl in H|done].
    destruct (Models.required_external _ _ _) as [loc|] eqn:E; [|done].
    simpl in H. apply required_external_Ok in E as [-> E].
    destruct (Models.locationMatchCharacteristic_field _); [simpl in H|done].
    destruct (Models.optional_external _ _ (m !! "copyChange"));
      [simpl in H|done].
    destruct (Models.optional_external _ _ (m !! "copies")); [simpl in H|done].
    by injection H as <-.
Qed.

(** The optional fields of CategoricalCnv and DescribedVariation, read back
    from a validated object: [locationMatchCharacteristic] is set exactly
    when the input gave one of the four values as a string, and
    [description] exactly when the input gave a string; both are unset when
    the input left the field out or gave [None]. *)
Theorem optional_fields_read_back :
  ∀ ext (m : gmap string PyVal),
    (∀ x, Models.CategoricalCnv_validate ext m = Ok x →
          (∀ c, Models.cnv_locationMatchCharacteristic x = Some c
                ↔ m !! "locationMatchCharacteristic"
                  = Some (VStr (Models.LocationMatchCharacteristic_value c)))
          ∧ (Models.cnv_locationMatchCharacteristic x = None
             ↔ m !! "locationMatchCharacteristic" = None
               ∨ m !! "locationMatchCharacteristic" = Some VNone))
    ∧ (∀ x, Models.DescribedVariation_validate ext m = Ok x →
            (∀ s, Models.dv_description x = Some s
                  ↔ m !! "description" = Some (VStr s))
            ∧ (Models.dv_description x = None
               ↔ m !! "description" = None
                 ∨ m !! "description" = Some VNone)).
Proof.
  intros ext m. split; intros x H.
  - unfold Models.CategoricalCnv_validate in H.
    destruct (Models.base_fields ext m); [simpl in H|done].
    destruct (Models.literal_field _ _); [simpl in H|done].
    destruct (Models.required_external _ _ _); [simpl in H|done].
    destruct (Models.locationMatchCharacteristic_field _) as [lmc|] eqn:E;
      [simpl in H|done].
    destruct (Models.optional_external _ _ (m !! "copyChange"));
      [simpl in H|done].
    destruct (Models.optional_external _ _ (m !! "copies")); [simpl in H|done].
    injection H as <-. simpl.
    unfold Models.locationMatchCharacteristic_field in E.
    destruct (m !! "locationMatchCharacteristic") as [[| | |s| |]|];
      try done.
    + injection E as <-. split; [|split; auto]. intros c. by split.
    + destruct (Models.LocationMatchCharacteristic_of s) as [c'|] eqn:Es;
        [|done].
      injection E as <-. apply LocationMatchCharacteristic_of_value in Es as ->.
      split.
      * intros c. split; [by intros [= ->]|].
        intros [= Hc]. f_equal. by destruct c, c'.
      * split; [done|by intros [|]].
    + injection E as <-. split; [|split; auto]. intros c. by split.
  - unfold Models.DescribedVariation_validate in H.
    destruct (Models.base_fields ext m); [simpl in H|done].
    destruct (Models.literal_field _ _); [simpl in H|done].
    destruct (Models.required_StrictStr _ _); [simpl in H|done].
    destruct (Models.optional_StrictStr _ _) as [d|] eqn:E; [|done].
    injection H as <-. simpl. unfold Models.optional_StrictStr in E.
    destruct (m !! "description") as [[| | |s| |]|]; try done;
      injection E as <-.
    + split; [|split; auto]. intros s. by split.
    + split; [|split; [done|by intros [|]]].
      intros s'. split; by intros [= ->].
    + split; [|split; auto]. intros s. by split.
Qed.

(** NumberCount and NumberChange keep the quantity the input gave under
    [count] and [change]: an integer as pydantic read it, else a Range, else
    (for [change] only) a CopyChange code.  Without the field, or with a
    value that is none of these, construction fails. *)
Theorem quantity_read_back :
  ∀ ext (m : gmap string PyVal),
    (∀ x, Models.NumberCount_validate ext m = Ok x →
          ∃ v, m !! "count" = Some v
               ∧ match Models.nc_count x with
                 | Models.an_int z => Models.as_int ext v = Some z
                 | Models.a_Range r =>
                     r = v ∧ Models.as_int ext v = None
                     ∧ Models.is_Range ext v = true
                 | Models.a_CopyChange _ => False
                 end)
    ∧ (∀ x, Models.NumberChange_validate ext m = Ok x →
            ∃ v, m !! "change" = Some v
                 ∧ match Models.nch_change x with
                   | Models.an_int z => Models.as_int ext v = Some z
                   | Models.a_Range r =>
                       r = v ∧ Models.as_int ext v = None
                       ∧ Models.is_Range ext v = true
                   | Models.a_CopyChange c =>
                       c = v ∧ Models.as_int ext v = None
                       ∧ Models.is_Range ext v = false
                       ∧ Models.is_CopyChange ext v = true
                   end).
Proof.
  intros ext m. split; intros x H.
  - unfold Models.NumberCount_validate in H.
    destruct (Models.literal_field _ _); [simpl in H|done].
    unfold Models.int_or_Range_field in H.
    destruct (m !! "count") as [v|]; [|done]. exists v. split; [done|].
    destruct (Models.as_int ext v) as [z|] eqn:Ez; simpl in H.
    + by injection H as <-.
    + destruct (Models.is_Range ext v) eqn:Er; simpl in H; [|done].
      by injection H as <-.
  - unfold Models.NumberChange_validate in H.
    destruct (Models.literal_field _ _); [simpl in H|done].
    unfold Models.int_or_Range_or_CopyChange_field in H.
    destruct (m !! "change") as [v|]; [|done]. exists v. split; [done|].
    destruct (Models.as_int ext v) as [z|] eqn:Ez; simpl in H.
    + by injection H as <-.
    + destruct (Models.is_Range ext v) eqn:Er; simpl in H.
      * by injection H as <-.
      * destruct (Models.is_CopyChange ext v) eqn:Ec; simpl in H; [|done].
        by injection H as <-.
Qed.

Lemma defining_field_required_witness :
  Samples.protein_by_reference !! "definingContext"
  = Some (VStr "ga4gh:VA.example")
  ∧ Samples.canonical_by_reference !! "definingContext"
    = Some (VStr "ga4gh:VA.example")
  ∧ Samples.three_copies !! "location"
    = Some (VDict [("type", VStr "SequenceLocation")]).
Proof.
  destruct (defining_field_required Samples.typed_collaborators
              Samples.protein_by_reference) as (Hp & _ & _).
  destruct (defining_field_required Samples.typed_collaborators
              Samples.canonical_by_reference) as (_ & Hc & _).
  destruct (defining_field_required Samples.typed_collaborators
              Samples.three_copies) as (_ & _ & Hl).
  split; [|split].
  - apply (Hp {| Models.psc_members := None;
                 Models.psc_definingContext := VStr "ga4gh:VA.example" |}).
    reflexivity.
  - apply (Hc {| Models.ca_members := None;
                 Models.ca_definingContext := VStr "ga4gh:VA.example" |}).
    reflexivity.
  - apply (Hl {| Models.cnv_members := None;
                 Models.cnv_location := VDict [("type", VStr "SequenceLocation")];
                 Models.cnv_locationMatchCharacteristic := Some Models.EXACT;
                 Models.cnv_copyChange := None;
                 Models.cnv_copies := Some (VInt 3) |}).
    reflexivity.
Defined.

Lemma optional_fields_read_back_witness :
  (Some Models.EXACT = Some Models.EXACT
   ↔ Samples.three_copies !! "locationMatchCharacteristic"
     = Some (VStr (Models.LocationMatchCharacteristic_value Models.EXACT)))
  ∧ ((None : option string) = None
     ↔ Samples.described_empty_label !! "description" = None
       ∨ Samples.described_empty_label !! "description" = Some VNone).
Proof.
  split.
  - apply (proj1 (proj1 (optional_fields_read_back Samples.typed_collaborators
                           Samples.three_copies)
                    {| Models.cnv_members := None;
                       Models.cnv_location :=
                         VDict [("type", VStr "SequenceLocation")];
                       Models.cnv_locationMatchCharacteristic :=
                         Some Models.EXACT;
                       Models.cnv_copyChange := None;
                       Models.cnv_copies := Some (VInt 3) |}
                    eq_refl) Models.EXACT).
  - apply (proj2 (proj2 (optional_fields_read_back Samples.typed_collaborators
                           Samples.described_empty_label)
                    {| Models.dv_members := None; Models.dv_label := "";
                       Models.dv_description := None |}
                    eq_refl)).
Defined.

Lemma quantity_read_back_witness :
  (∃ v, Samples.unknown_kind !! "count" = Some v
        ∧ Models.as_int Samples.typed_collaborators v = Some 3%Z)
  ∧ (∃ v, Samples.a_gain !! "change" = Some v
          ∧ VStr "efo:0030070" = v
          ∧ Models.as_int Samples.typed_collaborators v = None
          ∧ Models.is_Range Samples.typed_collaborators v = false
          ∧ Models.is_CopyChange Samples.typed_collaborators v = true).
Proof.
  split.
  - apply (proj1 (quantity_read_back Samples.typed_collaborators
                    Samples.unknown_kind)
             {| Models.nc_count := Models.an_int 3 |}).
    reflexivity.
  - apply (proj2 (quantity_read_back Samples.typed_collaborators
                    Samples.a_gain)
             {| Models.nch_change := Models.a_CopyChange (VStr "efo:0030070") |}).
    reflexivity.
Defined.

(* ===================================================================== *)
(** * The permissive validators, outcome by outcome                       *)
(* ===================================================================== *)

Section PermissiveFacts.
Import ProfileModels.
Implicit Types (v : DefiningContextConstraint) (rels : list Relation).

Lemma py_in_elem_of x rels : py_in x rels = true ↔ x ∈ rels.
Proof.
  unfold py_in. rewrite existsb_exists. split.
  - intros (e & Hin & He). apply bool_decide_eq_true in He as ->.
    by apply list_elem_of_In.
  - intros Hin. exists x. split; [by apply list_elem_of_In|].
    by apply bool_decide_eq_true.
Qed.

Lemma py_in_same_elements x rels rels' :
  (∀ r, r ∈ rels ↔ r ∈ rels') → py_in x rels = py_in x rels'.
Proof.
  intros H. apply eq_true_iff_eq. by rewrite !py_in_elem_of.
Qed.

Lemma truthy_same_elements rels rels' :
  (∀ r, r ∈ rels ↔ r ∈ rels') → truthy (Some rels) = truthy (Some rels').
Proof.
  intros H. destruct rels as [|r rels], rels' as [|r' rels']; try done.
  - exfalso. apply (not_elem_of_nil r'). apply H. left.
  - exfalso. apply (not_elem_of_nil r). apply H. left.
Qed.

(** The one-relation validators, as a function of the list. *)
Lemma single_relation_log v (required : Relation) :
  (if truthy (relations v)
      && negb (py_in required (default [] (relations v)))
   then true else false) = true
  ↔ ∃ rels, relations v = Some rels ∧ rels ≠ [] ∧ required ∉ rels.
Proof.
  destruct (relations v) as [[|r rels]|]; simpl truthy; cbv iota.
  - split; [done|]. by intros (rels & [= <-] & ? & _).
  - change (default [] (Some (r :: rels))) with (r :: rels).
    rewrite andb_true_l. destruct (py_in required (r :: rels)) eqn:E; simpl.
    + split; [done|]. intros (rels' & [= <-] & _ & Hn).
      by apply py_in_elem_of in E.
    + split; [|done]. intros _. exists (r :: rels). repeat split; [done|].
      intros Hin. apply py_in_elem_of in Hin. congruence.
  - split; [done|]. by intros (rels & [=] & _).
Qed.
End PermissiveFacts.

(** The permissive ProteinSequenceConsequence and CategoricalCnv validators
    return the constraint they were given and log one warning, naming the
    relation, exactly when [relations] is a non-empty list that lacks the
    required relation ("codon_translation", "sequence_liftover"); otherwise
    they log nothing. *)
Theorem permissive_single_relation_warning :
  ∀ v : ProfileModels.DefiningContextConstraint,
    let lacks required :=
      ∃ rels, ProfileModels.relations v = Some rels ∧ rels ≠ []
              ∧ required ∉ rels in
    (lacks ProfileModels.CODON_TRANSLATION →
     ProfileModels.ProteinSequenceConsequenceProperties.validate_constraints v
     = (v, [ProfileModels.warning ProfileModels.msg_relation
              (ProfileModels.ArgValue "codon_translation")]))
    ∧ (¬ lacks ProfileModels.CODON_TRANSLATION →
       ProfileModels.ProteinSequenceConsequenceProperties.validate_constraints v
       = (v, []))
    ∧ (lacks ProfileModels.SEQUENCE_LIFTOVER →
       ProfileModels.CategoricalCnvProperties.validate_constraints v
       = (v, [ProfileModels.warning ProfileModels.msg_relation
                (ProfileModels.ArgValue "sequence_liftover")]))
    ∧ (¬ lacks ProfileModels.SEQUENCE_LIFTOVER →
       ProfileModels.CategoricalCnvProperties.validate_constraints v = (v, [])).
Proof.
  intros v lacks.
  pose proof (single_relation_log v ProfileModels.CODON_TRANSLATION) as Hc.
  pose proof (single_relation_log v ProfileModels.SEQUENCE_LIFTOVER) as Hs.
  unfold ProfileModels.ProteinSequenceConsequenceProperties.validate_constraints,
    ProfileModels.CategoricalCnvProperties.validate_constraints.
  set (bc := truthy _ && negb (ProfileModels.py_in
                                 ProfileModels.CODON_TRANSLATION _)) in *.
  set (bs := truthy _ && negb (ProfileModels.py_in
                                 ProfileModels.SEQUENCE_LIFTOVER _)) in *.
  repeat split; intros H.
  - apply Hc in H. by destruct bc.
  - destruct bc; [|done]. destruct H. by apply Hc.
  - apply Hs in H. by destruct bs.
  - destruct bs; [|done]. destruct H. by apply Hs.
Qed.

Lemma permissive_single_relation_warning_witness :
  ProfileModels.ProteinSequenceConsequenceProperties.validate_constraints
    Samples.context_liftover_only
  = (Samples.context_liftover_only,
     [ProfileModels.warning ProfileModels.msg_relation
        (ProfileModels.ArgValue "codon_translation")])
  ∧ ProfileModels.CategoricalCnvProperties.validate_constraints
      Samples.context_liftover_only
    = (Samples.context_liftover_only, []).
Proof.
  destruct (permissive_single_relation_warning Samples.context_liftover_only)
    as (Hc & _ & _ & Hs).
  split.
  - apply Hc. exists [ProfileModels.SEQUENCE_LIFTOVER].
    split; [reflexivity|]. split; [discriminate|].
    rewrite list_elem_of_singleton. discriminate.
  - apply Hs. intros (rels & E & _ & Hn). injection E as <-.
    apply Hn. left.
Defined.

(** The permissive validators read [relations] as a set: two constraints
    whose lists hold the same relations, in any order and with any
    repetition, produce the same log in each of the three validators. *)
Theorem permissive_log_same_elements :
  ∀ (v v' : ProfileModels.DefiningContextConstraint) rels rels',
    ProfileModels.relations v = Some rels →
    ProfileModels.relations v' = Some rels' →
    (∀ r, r ∈ rels ↔ r ∈ rels') →
    snd (ProfileModels.ProteinSequenceConsequenceProperties.validate_constraints v)
    = snd (ProfileModels.ProteinSequenceConsequenceProperties.validate_constraints v')
    ∧ snd (ProfileModels.CanonicalAlleleProperties.validate_constraints v)
      = snd (ProfileModels.CanonicalAlleleProperties.validate_constraints v')
    ∧ snd (ProfileModels.CategoricalCnvProperties.validate_constraints v)
      = snd (ProfileModels.CategoricalCnvProperties.validate_constraints v').
Proof.
  intros v v' rels rels' Hv Hv' H.
  unfold ProfileModels.ProteinSequenceConsequenceProperties.validate_constraints,
    ProfileModels.CanonicalAlleleProperties.validate_constraints,
    ProfileModels.CategoricalCnvProperties.validate_constraints.
  rewrite Hv, Hv'. change (default [] (Some ?l)) with l.
  rewrite (truthy_same_elements rels rels' H).
  rewrite !(py_in_same_elements _ rels rels' H).
  assert ((list_to_set rels : gset ProfileModels.Relation) = list_to_set rels')
    as ->.
  { apply set_eq. intros r. by rewrite !elem_of_list_to_set. }
  repeat split.
  - by destruct (truthy _ && negb _).
  - destruct (truthy _); [|done]. by destruct (negb _).
  - by destruct (truthy _ && negb _).
Qed.

Lemma permissive_log_same_elements_witness :
  snd (ProfileModels.CanonicalAlleleProperties.validate_constraints
         Samples.context_liftover_only)
  = snd (ProfileModels.CanonicalAlleleProperties.validate_constraints
           {| ProfileModels.relations :=
                Some [ProfileModels.SEQUENCE_LIFTOVER;
                      ProfileModels.SEQUENCE_LIFTOVER] |}).
Proof.
  apply (permissive_log_same_elements Samples.context_liftover_only
           {| ProfileModels.relations :=
                Some [ProfileModels.SEQUENCE_LIFTOVER;
                      ProfileModels.SEQUENCE_LIFTOVER] |}
           [ProfileModels.SEQUENCE_LIFTOVER]
           [ProfileModels.SEQUENCE_LIFTOVER; ProfileModels.SEQUENCE_LIFTOVER]
           eq_refl eq_refl).
  intros r. rewrite !elem_of_cons, elem_of_nil. tauto.
Defined.

(** Permissive construction never rejects a decoded constraint and never
    changes it: without [constraints] each mixin class fails with a missing
    field, a decoder failure is passed on, and once the mapping decodes the
    class returns the decoded constraint with at most one log record. *)
Theorem permissive_construction_never_rejects :
  ∀ (of_context of_constraint
       : list (string * PyVal) → result ProfileModels.DefiningContextConstraint)
    (kwargs : gmap string PyVal),
    (kwargs !! "constraints" = None →
     ProfileModels.ProteinSequenceConsequenceProperties_validate of_context kwargs
     = Raise (ValidationError (missing "constraints"))
     ∧ ProfileModels.CanonicalAlleleProperties_validate of_context kwargs
       = Raise (ValidationError (missing "constraints"))
     ∧ ProfileModels.CategoricalCnvProperties_validate of_constraint kwargs
       = Raise (ValidationError (missing "constraints")))
    ∧ (∀ d e, kwargs !! "constraints" = Some (VDict d) →
              (of_context d = Raise e →
               ProfileModels.ProteinSequenceConsequenceProperties_validate
                 of_context kwargs = Raise e
               ∧ ProfileModels.CanonicalAlleleProperties_validate
                   of_context kwargs = Raise e)
              ∧ (of_constraint d = Raise e →
                 ProfileModels.CategoricalCnvProperties_validate
                   of_constraint kwargs = Raise e))
    ∧ (∀ d v, kwargs !! "constraints" = Some (VDict d) →
              (of_context d = Ok v →
               (∃ log, ProfileModels.ProteinSequenceConsequenceProperties_validate
                         of_context kwargs = Ok (v, log) ∧ (length log ≤ 1)%nat)
               ∧ (∃ log, ProfileModels.CanonicalAlleleProperties_validate
                           of_context kwargs = Ok (v, log) ∧ (length log ≤ 1)%nat))
              ∧ (of_constraint d = Ok v →
                 ∃ log, ProfileModels.CategoricalCnvProperties_validate
                          of_constraint kwargs = Ok (v, log)
                        ∧ (length log ≤ 1)%nat)).
Proof.
  intros of_context of_constraint kwargs.
  unfold ProfileModels.ProteinSequenceConsequenceProperties_validate,
    ProfileModels.CanonicalAlleleProperties_validate,
    ProfileModels.CategoricalCnvProperties_validate,
    ProfileModels.constraints_field.
  split; [by intros ->|]. split.
  - intros d e ->. simpl. split; [intros ->|intros ->]; done.
  - intros d v ->. simpl. split; [intros ->|intros ->]; simpl.
    + split.
      * unfold ProfileModels.ProteinSequenceConsequenceProperties.validate_constraints.
        destruct (truthy _ && negb _); eexists; (split; [done|simpl; lia]).
      * unfold ProfileModels.CanonicalAlleleProperties.validate_constraints.
        destruct (truthy _); [destruct (negb _)|];
          eexists; (split; [done|simpl; lia]).
    + unfold ProfileModels.CategoricalCnvProperties.validate_constraints.
      destruct (truthy _ && negb _); eexists; (split; [done|simpl; lia]).
Qed.

Lemma permissive_construction_never_rejects_witness :
  (∃ log, ProfileModels.CanonicalAlleleProperties_validate
            Samples.context_of_dict Samples.kwargs_object
          = Ok (Samples.context_liftover_only, log) ∧ (length log ≤ 1)%nat)
  ∧ ProfileModels.CanonicalAlleleProperties_validate Samples.context_of_dict
      Samples.untagged
    = Raise (ValidationError (missing "constraints")).
Proof.
  destruct (permissive_construction_never_rejects Samples.context_of_dict
              Samples.context_of_dict Samples.kwargs_object)
    as (_ & _ & Hok).
  destruct (permissive_construction_never_rejects Samples.context_of_dict
              Samples.context_of_dict Samples.untagged)
    as (Hmiss & _ & _).
  split.
  - apply (Hok Samples.liftover_only_dict Samples.context_liftover_only
             eq_refl); reflexivity.
  - apply Hmiss. reflexivity.
Defined.

(* ===================================================================== *)
(** * models.py: the inherited [members]                                  *)
(* ===================================================================== *)

(** [members], inherited by the four kinds of the union, read back from a
    validated object: it is unset exactly when the input left it out or
    gave [None], and otherwise it is the list the input gave, every item of
    which the collaborator accepted as a variation; a value that is not a
    list is rejected. *)
Theorem members_read_back :
  ∀ ext (m : gmap string PyVal),
    (∀ mem, Models.base_fields ext m = Ok mem →
            (mem = None ↔ m !! "members" = None ∨ m !! "members" = Some VNone)
            ∧ (∀ l, mem = Some l ↔ m !! "members" = Some (VList l))
            ∧ (∀ l, mem = Some l →
                    Forall (λ x, Models.is_variation_member ext x = true) l))
    ∧ (∀ x, Models.CanonicalAllele_validate ext m = Ok x →
            Models.base_fields ext m = Ok (Models.ca_members x))
    ∧ (∀ x, Models.CategoricalCnv_validate ext m = Ok x →
            Models.base_fields ext m = Ok (Models.cnv_members x))
    ∧ (∀ x, Models.DescribedVariation_validate ext m = Ok x →
            Models.base_fields ext m = Ok (Models.dv_members x))
    ∧ (∀ x, Models.ProteinSequenceConsequence_validate ext m = Ok x →
            Models.base_fields ext m = Ok (Models.psc_members x)).
Proof.
  intros ext m. split; [|repeat split]; [intros mem H|intros x H..].
  - unfold Models.base_fields, Models.members_field in H.
    destruct (negb _); [done|].
    destruct (m !! "members") as [[| | | |l|]|]; try done.
    + injection H as <-. split; [by split; auto|]. by split.
    + destruct (forallb _ l) eqn:E; [|done]. injection H as <-.
      split; [split; [done|by intros [|]]|].
      split; [intros l'; split; by intros [= ->]|].
      intros l' [= <-]. apply Forall_forall. intros x Hx.
      rewrite forallb_forall in E. apply E. by apply list_elem_of_In.
    + injection H as <-. split; [by split; auto|]. by split.
  - unfold Models.CanonicalAllele_validate in H.
    destruct (Models.base_fields ext m); [simpl in H|done].
    destruct (Models.literal_field _ _); [simpl in H|done].
    destruct (Models.required_external _ _ _); [|done]. by injection H as <-.
  - unfold Models.CategoricalCnv_validate in H.
    destruct (Models.base_fields ext m); [simpl in H|done].
    destruct (Models.literal_field _ _); [simpl in H|done].
    destruct (Models.required_external _ _ _); [simpl in H|done].
    destruct (Models.locationMatchCharacteristic_field _); [simpl in H|done].
    destruct (Models.optional_external _ _ (m !! "copyChange"));
      [simpl in H|done].
    destruct (Models.optional_external _ _ (m !! "copies")); [simpl in H|done].
    by injection H as <-.
  - unfold Models.DescribedVariation_validate in H.
    destruct (Models.base_fields ext m); [simpl in H|done].
    destruct (Models.literal_field _ _); [simpl in H|done].
    destruct (Models.required_StrictStr _ _); [simpl in H|done].
    destruct (Models.optional_StrictStr _ _); [|done]. by injection H as <-.
  - unfold Models.ProteinSequenceConsequence_validate in H.
    destruct (Models.base_fields ext m); [simpl in H|done].
    destruct (Models.literal_field _ _); [simpl in H|done].
    destruct (Models.required_external _ _ _); [|done]. by injection H as <-.
Qed.

Lemma members_read_back_witness :
  Forall (λ x, Models.is_variation_member Samples.typed_collaborators x = true)
    [VDict [("type", VStr "Allele")]]
  ∧ Models.base_fields Samples.typed_collaborators Samples.protein_by_reference
    = Ok None.
Proof.
  split.
  - destruct (members_read_back Samples.typed_collaborators
                (<["members" := VList [VDict [("type", VStr "Allele")]]]>
                   Samples.canonical_by_reference)) as (Hb & _).
    destruct (Hb (Some [VDict [("type", VStr "Allele")]])) as (_ & _ & Hf);
      [vm_compute; reflexivity|].
    by apply Hf.
  - apply (proj2 (proj2 (proj2 (proj2
              (members_read_back Samples.typed_collaborators
                 Samples.protein_by_reference))))
             {| Models.psc_members := None;
                Models.psc_definingContext := VStr "ga4gh:VA.example" |}).
    reflexivity.
Defined.
